(** * DeltaARM robot emulator: device state and script primitives

    A shallow embedding of [app/emulator_state.py] (the [EmulatorState]
    singleton) and of the host functions that [app/lua_interpreter.py]
    binds into the Lua runtime, together with the properties of the
    scripting-to-device binding layer.

    Conventions of the embedding
    - Python [int] is [Z]; the bit operators [&], [|], [<<], [>>] are
      [Z.land], [Z.lor], [Z.shiftl], [Z.shiftr] (two's complement on
      negative numbers, as in Python).
    - Python [float] is approximated by [Q].  No property below depends on
      rounding: floats are only stored, copied, compared with zero and
      handed to [time.sleep].
    - A [dict] that is only ever looked up by key is a [gmap]; the point
      table, whose iteration order decides lookup by name, is an
      insertion-ordered association list.
    - Strings are ASCII; [str.upper] is the ASCII upper-casing. *)

From Stdlib Require Import ZArith QArith Lia Bool Ascii String.
From stdpp Require Import base gmap strings list pretty.

Local Open Scope string_scope.
Local Open Scope Z_scope.

(** ** Python values that cross the Lua/Python boundary or sit in a point *)

Inductive pyval : Type :=
  | VNone
  | VBool (b : bool)
  | VInt (z : Z)
  | VFloat (q : Q)
  | VStr (s : string)
  | VList (l : list Z).

(** [x is None] *)
Definition is_None (v : pyval) : bool :=
  match v with VNone => true | _ => false end.

(** A value usable where Python wants an [int] ([bool] is a subclass). *)
Definition as_int (v : pyval) : option Z :=
  match v with
  | VInt z => Some z
  | VBool b => Some (Z.b2z b)
  | _ => None
  end.

(** A value usable where Python wants a real number. *)
Definition as_number (v : pyval) : option Q :=
  match v with
  | VInt z => Some (inject_Z z)
  | VBool b => Some (inject_Z (Z.b2z b))
  | VFloat q => Some q
  | _ => None
  end.

(** ** Insertion-ordered dictionaries (Python 3.7+ [dict]) *)

Section PyDict.
Context {V : Type}.

(** [d[k] = v]: an existing key keeps its position, a new one goes last. *)
Fixpoint dict_set (k : Z) (v : V) (d : list (Z * V)) : list (Z * V) :=
  match d with
  | [] => [(k, v)]
  | (k', v') :: d' =>
      if Z.eqb k' k then (k, v) :: d' else (k', v') :: dict_set k v d'
  end.

(** [d.get(k)] *)
Fixpoint dict_get (k : Z) (d : list (Z * V)) : option V :=
  match d with
  | [] => None
  | (k', v') :: d' => if Z.eqb k' k then Some v' else dict_get k d'
  end.

(** [d.values()], in iteration order *)
Definition dict_values (d : list (Z * V)) : list V := snd <$> d.
End PyDict.

(** ** The device state: [EmulatorState.__init__] *)

Record Position : Type := mkPosition {
  pos_x : pyval; pos_y : pyval; pos_z : pyval;
  pos_rx : pyval; pos_ry : pyval; pos_rz : pyval
}.

Record EmulatorState : Type := mkState {
  di_state : gmap Z bool;
  do_state : gmap Z bool;
  ext_di_state : gmap (Z * Z) bool;
  ext_do_state : gmap (Z * Z) bool;
  modbus_registers : gmap Z Z;
  current_position : Position;
  joint_angles : list pyval;
  global_points : list (Z * gmap string pyval);
  motion_settings : gmap string pyval;
  script_output : list string;
  script_running : bool
}.

(** [{i: False for i in range(lo, hi)}] *)
Definition all_off (lo hi : Z) : gmap Z bool :=
  list_to_map ((fun i => (i, false)) <$> seqZ lo (hi - lo)).

Definition initial_state : EmulatorState := {|
  di_state := all_off 1 25;
  do_state := all_off 1 13;
  ext_di_state := ∅;
  ext_do_state := ∅;
  modbus_registers := ∅;
  current_position :=
    mkPosition (VFloat 0) (VFloat 0) (VFloat 0) (VFloat 0) (VFloat 0) (VFloat 0);
  joint_angles := replicate 6 (VFloat 0);
  global_points := [];
  motion_settings :=
    <["spdj" := VFloat 10]> (<["accj" := VFloat 10]> (<["decj" := VFloat 10]>
    (<["spdl" := VFloat 100]> (<["accl" := VFloat 10]> (<["decl" := VFloat 10]>
    (<["accur" := VStr "HIGH"]> ∅))))));
  script_output := [];
  script_running := false
|}.

(** Field assignments [self.f = ...] *)
Definition with_di_state (f : gmap Z bool → gmap Z bool) (st : EmulatorState) :=
  mkState (f (di_state st)) (do_state st) (ext_di_state st) (ext_do_state st)
    (modbus_registers st) (current_position st) (joint_angles st)
    (global_points st) (motion_settings st) (script_output st) (script_running st).
Definition with_do_state (f : gmap Z bool → gmap Z bool) (st : EmulatorState) :=
  mkState (di_state st) (f (do_state st)) (ext_di_state st) (ext_do_state st)
    (modbus_registers st) (current_position st) (joint_angles st)
    (global_points st) (motion_settings st) (script_output st) (script_running st).
Definition with_ext_do_state (f : gmap (Z * Z) bool → gmap (Z * Z) bool)
    (st : EmulatorState) :=
  mkState (di_state st) (do_state st) (ext_di_state st) (f (ext_do_state st))
    (modbus_registers st) (current_position st) (joint_angles st)
    (global_points st) (motion_settings st) (script_output st) (script_running st).
Definition with_modbus_registers (f : gmap Z Z → gmap Z Z) (st : EmulatorState) :=
  mkState (di_state st) (do_state st) (ext_di_state st) (ext_do_state st)
    (f (modbus_registers st)) (current_position st) (joint_angles st)
    (global_points st) (motion_settings st) (script_output st) (script_running st).
Definition with_current_position (p : Position) (st : EmulatorState) :=
  mkState (di_state st) (do_state st) (ext_di_state st) (ext_do_state st)
    (modbus_registers st) p (joint_angles st)
    (global_points st) (motion_settings st) (script_output st) (script_running st).
Definition with_joint_angles (f : list pyval → list pyval) (st : EmulatorState) :=
  mkState (di_state st) (do_state st) (ext_di_state st) (ext_do_state st)
    (modbus_registers st) (current_position st) (f (joint_angles st))
    (global_points st) (motion_settings st) (script_output st) (script_running st).
Definition with_global_points
    (f : list (Z * gmap string pyval) → list (Z * gmap string pyval))
    (st : EmulatorState) :=
  mkState (di_state st) (do_state st) (ext_di_state st) (ext_do_state st)
    (modbus_registers st) (current_position st) (joint_angles st)
    (f (global_points st)) (motion_settings st) (script_output st) (script_running st).
Definition with_motion_settings (f : gmap string pyval → gmap string pyval)
    (st : EmulatorState) :=
  mkState (di_state st) (do_state st) (ext_di_state st) (ext_do_state st)
    (modbus_registers st) (current_position st) (joint_angles st)
    (global_points st) (f (motion_settings st)) (script_output st) (script_running st).
Definition with_script_output (f : list string → list string) (st : EmulatorState) :=
  mkState (di_state st) (do_state st) (ext_di_state st) (ext_do_state st)
    (modbus_registers st) (current_position st) (joint_angles st)
    (global_points st) (motion_settings st) (f (script_output st)) (script_running st).
Definition with_script_running (b : bool) (st : EmulatorState) :=
  mkState (di_state st) (do_state st) (ext_di_state st) (ext_do_state st)
    (modbus_registers st) (current_position st) (joint_angles st)
    (global_points st) (motion_settings st) (script_output st) b.

(** ** Accessors of [EmulatorState] *)

(** [1 <= pin <= hi] *)
Definition in_range (lo hi pin : Z) : bool := (lo <=? pin) && (pin <=? hi).

Definition get_di (pin : Z) (st : EmulatorState) : bool :=
  match di_state st !! pin with
  | None => false
  | Some level => level
  end.

Definition set_di (pin : Z) (state : bool) (st : EmulatorState) : EmulatorState :=
  if in_range 1 24 pin then with_di_state (<[pin := state]>) st else st.

Definition get_do (pin : Z) (st : EmulatorState) : bool :=
  match do_state st !! pin with
  | None => false
  | Some level => level
  end.

Definition set_do (pin : Z) (state : bool) (st : EmulatorState) : EmulatorState :=
  if in_range 1 12 pin then with_do_state (<[pin := state]>) st else st.

(** [self.modbus_registers.get(address, 0)] *)
Definition reg_get (address : Z) (st : EmulatorState) : Z :=
  default 0 (modbus_registers st !! address).

Definition read_modbus (address : Z) (size : string) (st : EmulatorState) : Z :=
  if String.eqb size "DW" then
    let low := reg_get address st in
    let high := reg_get (address + 1) st in
    Z.lor (Z.shiftl high 16) (Z.land low 0xFFFF)
  else reg_get address st.

Definition write_modbus (address value : Z) (size : string) (st : EmulatorState)
    : EmulatorState :=
  if String.eqb size "DW" then
    with_modbus_registers (<[address + 1 := Z.land (Z.shiftr value 16) 0xFFFF]>)
      (with_modbus_registers (<[address := Z.land value 0xFFFF]>) st)
  else with_modbus_registers (<[address := Z.land value 0xFFFF]>) st.

Definition set_global_point (point_num : Z) (data : gmap string pyval)
    (st : EmulatorState) : EmulatorState :=
  if in_range 1 1000 point_num
  then with_global_points (dict_set point_num data) st
  else st.

(** A point reference, [Union[int, str]]. *)
Inductive point_ref : Type :=
  | PointNum (n : Z)
  | PointName (s : string).

(** [p_data.get('name') == point] for a [str] point *)
Definition has_name (point : string) (p_data : gmap string pyval) : bool :=
  match p_data !! "name" with
  | Some (VStr s) => String.eqb s point
  | _ => false
  end.

Definition get_global_point (point : point_ref) (st : EmulatorState)
    : option (gmap string pyval) :=
  match point with
  | PointNum n => dict_get n (global_points st)
  | PointName s => List.find (has_name s) (dict_values (global_points st))
  end.

Definition move_to_position (x y z rx ry rz : pyval) (st : EmulatorState)
    : EmulatorState :=
  with_current_position (mkPosition x y z rx ry rz) st.

Definition add_log (message : string) (st : EmulatorState) : EmulatorState :=
  with_script_output (fun out => (out ++ [message])%list) st.

Definition clear_logs (st : EmulatorState) : EmulatorState :=
  with_script_output (fun _ => []) st.

Definition get_logs (st : EmulatorState) : list string := script_output st.

(** Writes that [lua_interpreter.py] does on the fields directly. *)

(** [emulator_state.ext_do_state[key] = state] in [ExtDO] *)
Definition set_ext_do (address_index pin_index : Z) (state : bool)
    (st : EmulatorState) : EmulatorState :=
  with_ext_do_state (<[(address_index, pin_index) := state]>) st.

(** [emulator_state.joint_angles[joint - 1] = degree] under the guard
    [1 <= joint <= 6] of [MovJ] *)
Definition set_joint (joint : Z) (degree : pyval) (st : EmulatorState)
    : EmulatorState :=
  with_joint_angles (<[Z.to_nat (joint - 1) := degree]>) st.

(** [emulator_state.motion_settings[key] = value] *)
Definition set_motion (key : string) (value : pyval) (st : EmulatorState)
    : EmulatorState :=
  with_motion_settings (<[key := value]>) st.

(** ** Atomic writes and traces

    Every assignment to the shared state that occurs in the two modules.
    Whatever the interleaving of the script thread and the request
    handlers, the state they leave is the result of a sequence of these. *)

Inductive op : Type :=
  | OpSetDI (pin : Z) (state : bool)
  | OpSetDO (pin : Z) (state : bool)
  | OpWriteModbus (address value : Z) (size : string)
  | OpSetGlobalPoint (point_num : Z) (data : gmap string pyval)
  | OpMoveToPosition (x y z rx ry rz : pyval)
  | OpAddLog (message : string)
  | OpClearLogs
  | OpSetExtDO (address_index pin_index : Z) (state : bool)
  | OpSetJoint (joint : Z) (degree : pyval)
  | OpSetMotion (key : string) (value : pyval)
  | OpSetRunning (b : bool).

Definition apply_op (o : op) (st : EmulatorState) : EmulatorState :=
  match o with
  | OpSetDI pin state => set_di pin state st
  | OpSetDO pin state => set_do pin state st
  | OpWriteModbus address value size => write_modbus address value size st
  | OpSetGlobalPoint point_num data => set_global_point point_num data st
  | OpMoveToPosition x y z rx ry rz => move_to_position x y z rx ry rz st
  | OpAddLog message => add_log message st
  | OpClearLogs => clear_logs st
  | OpSetExtDO a p state => set_ext_do a p state st
  | OpSetJoint joint degree =>
      if in_range 1 6 joint then set_joint joint degree st else st
  | OpSetMotion key value => set_motion key value st
  | OpSetRunning b => with_script_running b st
  end.

Definition run_ops (ops : list op) (st : EmulatorState) : EmulatorState :=
  fold_left (fun s o => apply_op o s) ops st.

(** The write [o] assigns a level to the digital input [pin] *)
Definition sets_di (pin : Z) (o : op) : bool :=
  match o with
  | OpSetDI p _ => Z.eqb p pin && in_range 1 24 p
  | _ => false
  end.

(** The write [o] assigns a level to the digital output [pin] *)
Definition sets_do (pin : Z) (o : op) : bool :=
  match o with
  | OpSetDO p _ => Z.eqb p pin && in_range 1 12 p
  | _ => false
  end.

(** ** Invariants of the state *)

(** Every stored register is a 16-bit unsigned value. *)
Definition registers_16bit (st : EmulatorState) : Prop :=
  ∀ address value,
    modbus_registers st !! address = Some value → 0 <= value <= 65535.

(** ** Text *)

Definition upper_ascii (c : ascii) : ascii :=
  let n := nat_of_ascii c in
  if (97 <=? n)%nat && (n <=? 122)%nat then ascii_of_nat (n - 32) else c.

(** [s.upper()] *)
Fixpoint upper (s : string) : string :=
  match s with
  | EmptyString => EmptyString
  | String c s' => String (upper_ascii c) (upper s')
  end.

Definition hex_digit (d : Z) : ascii :=
  if d <? 10 then ascii_of_nat (48 + Z.to_nat d) else ascii_of_nat (55 + Z.to_nat d).

Fixpoint hex_digits (fuel : nat) (n : Z) (acc : string) : string :=
  match fuel with
  | O => acc
  | S fuel' =>
      let acc' := String (hex_digit (n mod 16)) acc in
      if n / 16 =? 0 then acc' else hex_digits fuel' (n / 16) acc'
  end.

Fixpoint zeros (n : nat) (s : string) : string :=
  match n with
  | O => s
  | S n' => String "0" (zeros n' s)
  end.

Definition zero_pad (width : nat) (s : string) : string :=
  zeros (width - String.length s) s.

(** [f"{n:04X}"] for an [int]: the sign counts in the width. *)
Definition format_04X (n : Z) : string :=
  let digits := hex_digits (S (Z.to_nat (Z.log2 (Z.abs n)))) (Z.abs n) "" in
  if n <? 0 then String "-" (zero_pad 3 digits) else zero_pad 4 digits.

(** ** What the surrounding process contributes

    The value the k-th call of [time.time()] returns; what the
    request-handler threads do to the shared state while the script
    thread is inside its k-th [time.sleep] (the script thread is
    preempted where it blocks); and the text [str] gives a float.
    Nothing is assumed about any of the three. *)

Class Platform : Type := {
  time_time : nat → Q;
  concurrent : nat → EmulatorState → EmulatorState;
  float_repr : Q → string
}.

(** ** Exceptions and the script thread's monad *)

Inductive exn_class : Type :=
  | TypeError | ValueError | KeyError | IndexError | AttributeError
  | LuaError | LuaSyntaxError
  | KeyboardInterrupt | SystemExit.

(** [isinstance(e, Exception)]; the last two derive from [BaseException] only *)
Definition is_Exception (c : exn_class) : bool :=
  match c with
  | KeyboardInterrupt | SystemExit => false
  | _ => true
  end.

(** An exception object; [exn_msg] is [str(e)]. *)
Record exn : Type := mkExn { exn_cls : exn_class; exn_msg : string }.

Inductive py_result (A : Type) : Type :=
  | Return (a : A)
  | Raise (e : exn).
Arguments Return {A} a.
Arguments Raise {A} e.

(** The script thread: the shared state, and how many times it has read
    the clock and slept so far. *)
Record Machine : Type := mkMachine {
  dev : EmulatorState;
  time_calls : nat;
  sleeps : nat
}.

Definition boot : Machine := mkMachine initial_state 0 0.

(** A computation of the script thread; [None] is one that never returns. *)
Definition M (A : Type) : Type := Machine → option (py_result A * Machine).

Definition ret {A} (a : A) : M A := fun m => Some (Return a, m).

Definition bind {A B} (c : M A) (k : A → M B) : M B :=
  fun m =>
    match c m with
    | None => None
    | Some (Raise e, m') => Some (Raise e, m')
    | Some (Return a, m') => k a m'
    end.

Definition raise {A} (c : exn_class) (msg : string) : M A :=
  fun m => Some (Raise (mkExn c msg), m).

Definition never {A} : M A := fun _ => None.

#[global] Instance M_ret : MRet M := @ret.
#[global] Instance M_bind : MBind M := fun A B k c => bind c k.

Notation "'let*' x ':=' c 'in' k" := (bind c (fun x => k))
  (at level 10, x name, c at level 100, k at level 200).

(** A call of an [EmulatorState] writer / reader *)
Definition write (f : EmulatorState → EmulatorState) : M unit :=
  fun m => Some (Return tt, mkMachine (f (dev m)) (time_calls m) (sleeps m)).

Definition read {A} (f : EmulatorState → A) : M A :=
  fun m => Some (Return (f (dev m)), m).

Fixpoint for_each {A} (l : list A) (body : A → M unit) : M unit :=
  match l with
  | [] => mret tt
  | x :: l' => body x;; for_each l' body
  end.

(** [type(v).__name__] *)
Definition type_name (v : pyval) : string :=
  match v with
  | VNone => "NoneType" | VBool _ => "bool" | VInt _ => "int"
  | VFloat _ => "float" | VStr _ => "str" | VList _ => "list"
  end.

(** ** Packing pins into an integer: the loop of [DI]

    [result = 0; for i in range(length): if get(pin_index + i): result |= (1 << i)] *)
Definition pack_pins (get : Z → bool) (pin_index : Z) (length : nat) : Z :=
  fold_left
    (fun result i =>
       if get (pin_index + Z.of_nat i)
       then Z.lor result (Z.shiftl 1 (Z.of_nat i))
       else result)
    (seq 0 length) 0.

(** ** The host functions bound into the Lua globals *)

Section Primitives.
Context `{Platform}.

(** [str(v)], as an f-string renders a value *)
Definition py_str (v : pyval) : string :=
  match v with
  | VNone => "None"
  | VBool b => if b then "True" else "False"
  | VInt z => pretty z
  | VFloat q => float_repr q
  | VStr s => s
  | VList l => "[" +:+ String.concat ", " (pretty <$> l) +:+ "]"
  end.

Definition ref_str (point : point_ref) : string :=
  match point with
  | PointNum n => pretty n
  | PointName s => s
  end.

Definition on_off (b : bool) : string := if b then "ON" else "OFF".

(** [time.time()] *)
Definition time_now : M Q :=
  fun m => Some (Return (time_time (time_calls m)),
                 mkMachine (dev m) (S (time_calls m)) (sleeps m)).

(** [time.sleep(secs)]: a negative length raises; otherwise the other
    threads run while this one is suspended. *)
Definition time_sleep (secs : pyval) : M unit :=
  match as_number secs with
  | None =>
      raise TypeError
        ("'" +:+ type_name secs +:+ "' object cannot be interpreted as an integer")
  | Some q =>
      if Qle_bool 0 q
      then fun m => Some (Return tt,
                          mkMachine (concurrent (sleeps m) (dev m))
                                    (time_calls m) (S (sleeps m)))
      else raise ValueError "sleep length must be non-negative"
  end.

(** [range(n)] as the list of its indices *)
Definition py_range (n : pyval) : M (list nat) :=
  match as_int n with
  | Some z => mret (seq 0 (Z.to_nat z))
  | None =>
      raise TypeError
        ("'" +:+ type_name n +:+ "' object cannot be interpreted as an integer")
  end.

(** [bool((status_num >> i) & 1)] *)
Definition status_bit (status_num : pyval) (i : nat) : M bool :=
  match as_int status_num with
  | Some z => mret (negb (Z.land (Z.shiftr z (Z.of_nat i)) 1 =? 0))
  | None =>
      raise TypeError
        ("unsupported operand type(s) for >>: '" +:+ type_name status_num
         +:+ "' and 'int'")
  end.

Definition DI (pin_index : Z) (length : option Z) : M pyval :=
  match length with
  | Some n =>
      let* st := read id in
      mret (VInt (pack_pins (fun pin => get_di pin st) pin_index (Z.to_nat n)))
  | None =>
      let* level := read (get_di pin_index) in
      mret (VStr (on_off level))
  end.

Definition DO (pin_index : Z) (status_or_length status_num_or_delay delay_time : pyval)
    : M unit :=
  match status_or_length with
  | VStr s =>
      let status := String.eqb (upper s) "ON" in
      write (set_do pin_index status);;
      write (add_log ("DO(" +:+ pretty pin_index +:+ ", " +:+ on_off status +:+ ")"));;
      if is_None status_num_or_delay then mret tt
      else
        time_sleep status_num_or_delay;;
        write (set_do pin_index (negb status));;
        write (add_log ("DO(" +:+ pretty pin_index +:+ ", "
                        +:+ on_off (negb status) +:+ ") after delay"))
  | length =>
      let status_num := status_num_or_delay in
      let* indices := py_range length in
      for_each indices (fun i =>
        let pin := pin_index + Z.of_nat i in
        let* state := status_bit status_num i in
        write (set_do pin state));;
      write (add_log ("DO(" +:+ pretty pin_index +:+ ", " +:+ py_str length
                      +:+ ", " +:+ py_str status_num +:+ ")"));;
      if is_None delay_time then mret tt
      else
        time_sleep delay_time;;
        for_each indices (fun i =>
          let pin := pin_index + Z.of_nat i in
          let* level := read (get_do pin) in
          write (set_do pin (negb level)))
  end.

Definition ExtDI (address_index pin_index : Z) : M pyval :=
  let* state :=
    read (fun st => default false (ext_di_state st !! (address_index, pin_index))) in
  mret (VStr (on_off state)).

Definition ExtDO (address_index pin_index : Z) (status : string) (delay_time : pyval)
    : M unit :=
  let state := String.eqb (upper status) "ON" in
  write (set_ext_do address_index pin_index state);;
  write (add_log ("ExtDO(" +:+ pretty address_index +:+ ", " +:+ pretty pin_index
                  +:+ ", " +:+ status +:+ ")"));;
  if is_None delay_time then mret tt
  else
    time_sleep delay_time;;
    write (set_ext_do address_index pin_index (negb state)).

(** [point_data[key]] *)
Definition item (point_data : gmap string pyval) (key : string) : M pyval :=
  match point_data !! key with
  | Some v => mret v
  | None => raise KeyError ("'" +:+ key +:+ "'")
  end.

(** [if point_data:] for an [Optional[dict]]: [None] and [{}] are false *)
Definition found (point_data : option (gmap string pyval)) : bool :=
  match point_data with
  | Some d => negb (Nat.eqb (size d) 0)
  | None => false
  end.

(** The common body of [MovP] and [MovL]; [fname] is the name in the log. *)
Definition move_to_point (fname : string) (point : point_ref) : M unit :=
  let* point_data := read (get_global_point point) in
  match point_data with
  | Some d =>
      if found point_data then
        let* x := item d "x" in
        let* y := item d "y" in
        let* z := item d "z" in
        write (move_to_position x y z
                 (default (VInt 0) (d !! "rx"))
                 (default (VInt 0) (d !! "ry"))
                 (default (VInt 0) (d !! "rz")));;
        write (add_log (fname +:+ "(" +:+ ref_str point +:+ ") -> (" +:+ py_str x
                        +:+ ", " +:+ py_str y +:+ ", " +:+ py_str z +:+ ")"))
      else write (add_log (fname +:+ "(" +:+ ref_str point +:+ ") - Point not found"))
  | None => write (add_log (fname +:+ "(" +:+ ref_str point +:+ ") - Point not found"))
  end.

Definition MovP (point : point_ref) : M unit := move_to_point "MovP" point.
Definition MovL (point : point_ref) : M unit := move_to_point "MovL" point.

Definition MovJ (joint : Z) (degree : pyval) : M unit :=
  if in_range 1 6 joint then
    write (set_joint joint degree);;
    write (add_log ("MovJ(Joint " +:+ pretty joint +:+ ", " +:+ py_str degree +:+ "°)"))
  else mret tt.

Definition SetGlobalPoint (point_num : Z) (name x y z rx ry rz : pyval)
    (elbow shoulder flip uf tf jrc : pyval) : M unit :=
  let jrc := if is_None jrc then VList (replicate 8 0) else jrc in
  let point_data : gmap string pyval :=
    <["name" := name]> (<["x" := x]> (<["y" := y]> (<["z" := z]>
    (<["rx" := rx]> (<["ry" := ry]> (<["rz" := rz]>
    (<["elbow" := elbow]> (<["shoulder" := shoulder]> (<["flip" := flip]>
    (<["uf" := uf]> (<["tf" := tf]> (<["jrc" := jrc]> ∅)))))))))))) in
  write (set_global_point point_num point_data);;
  write (add_log ("SetGlobalPoint(" +:+ pretty point_num +:+ ", '" +:+ py_str name
                  +:+ "', " +:+ py_str x +:+ ", " +:+ py_str y +:+ ", "
                  +:+ py_str z +:+ ")")).

Definition DELAY (delay_time : pyval) : M unit :=
  write (add_log ("DELAY(" +:+ py_str delay_time +:+ "s)"));;
  time_sleep delay_time.

Definition ReadModbus (address : Z) (size : string) : M Z :=
  let* value := read (read_modbus address size) in
  write (add_log ("ReadModbus(0x" +:+ format_04X address +:+ ", " +:+ size
                  +:+ ") = " +:+ pretty value));;
  mret value.

Definition WriteModbus (address : Z) (size : string) (value : Z) : M unit :=
  write (write_modbus address value size);;
  write (add_log ("WriteModbus(0x" +:+ format_04X address +:+ ", " +:+ size
                  +:+ ", " +:+ pretty value +:+ ")")).

(** [SpdJ] ... [DecL], [Accur]: one entry of [motion_settings] and a log line *)
Definition SpdJ (speed : pyval) : M unit :=
  write (set_motion "spdj" speed);;
  write (add_log ("SpdJ(" +:+ py_str speed +:+ "%)")).
Definition AccJ (acceleration : pyval) : M unit :=
  write (set_motion "accj" acceleration);;
  write (add_log ("AccJ(" +:+ py_str acceleration +:+ "%)")).
Definition DecJ (deceleration : pyval) : M unit :=
  write (set_motion "decj" deceleration);;
  write (add_log ("DecJ(" +:+ py_str deceleration +:+ "%)")).
Definition SpdL (speed : pyval) : M unit :=
  write (set_motion "spdl" speed);;
  write (add_log ("SpdL(" +:+ py_str speed +:+ " mm/sec)")).
Definition AccL (acceleration : pyval) : M unit :=
  write (set_motion "accl" acceleration);;
  write (add_log ("AccL(" +:+ py_str acceleration +:+ " mm/sec²)")).
Definition DecL (deceleration : pyval) : M unit :=
  write (set_motion "decl" deceleration);;
  write (add_log ("DecL(" +:+ py_str deceleration +:+ " mm/sec²)")).
Definition Accur (mode : pyval) : M unit :=
  write (set_motion "accur" mode);;
  write (add_log ("Accur(" +:+ py_str mode +:+ ")")).

(** *** [WAIT] *)

(** The key under which a value is looked up in a dict with [int] keys:
    [1.0] and [True] find the entry of [1]; a list cannot be hashed. *)
Definition dict_key (v : pyval) : M (option Z) :=
  match v with
  | VInt z => mret (Some z)
  | VBool b => mret (Some (Z.b2z b))
  | VFloat q =>
      mret (if Qnum q mod Zpos (Qden q) =? 0
            then Some (Qnum q / Zpos (Qden q)) else None)
  | VNone | VStr _ => mret None
  | VList _ => raise TypeError "unhashable type: 'list'"
  end.

(** [emulator_state.get_di(index)] / [get_do(index)] on an untyped index *)
Definition pin_level (get : Z → EmulatorState → bool) (index : pyval) : M bool :=
  let* key := dict_key index in
  match key with
  | Some pin => read (get pin)
  | None => mret false
  end.

(** [get_di(index) if io_type == 'DI' else get_do(index)], the poll of
    the DI/DO branch *)
Definition polled (io_type : string) (index : pyval) : M bool :=
  if String.eqb io_type "DI" then pin_level get_di index
  else pin_level get_do index.

(** Truth value of a float *)
Definition truthy (t : Q) : bool := negb (Qeq_bool t 0).

(** The polling loop of the DI/DO branch; [fuel] bounds the number of polls. *)
Fixpoint wait_io (fuel : nat) (io_type : string) (index : pyval) (status : bool)
    (timeout : option Q) (start_time : Q) : M unit :=
  match fuel with
  | O => never
  | S fuel' =>
      let* current := polled io_type index in
      if Bool.eqb current status then mret tt
      else
        let* expired :=
          match timeout with
          | Some t =>
              if truthy t then
                let* now := time_now in
                mret (Qle_bool t (now - start_time))
              else mret false
          | None => mret false
          end in
        if expired then write (add_log "WAIT timeout")
        else time_sleep (VFloat (1 # 100));; wait_io fuel' io_type index status timeout start_time
  end.

(** [current == value] for an [int] on the left *)
Definition int_eq (current : Z) (value : pyval) : bool :=
  match value with
  | VInt z => current =? z
  | VBool b => current =? Z.b2z b
  | VFloat q => Qeq_bool (inject_Z current) q
  | _ => false
  end.

(** The polling loop of the register branch *)
Fixpoint wait_modbus (fuel : nat) (address : Z) (data_type value : pyval) : M unit :=
  match fuel with
  | O => never
  | S fuel' =>
      let* current :=
        read (read_modbus address
                (match data_type with VStr size => size | _ => "W" end)) in
      if int_eq current value then mret tt
      else time_sleep (VFloat (1 # 100));; wait_modbus fuel' address data_type value
  end.

(** [isinstance(args[0], str) and args[0].upper() in ['DI', 'DO']] *)
Definition io_type_of (arg0 : pyval) : option string :=
  match arg0 with
  | VStr s =>
      if String.eqb (upper s) "DI" || String.eqb (upper s) "DO"
      then Some (upper s) else None
  | _ => None
  end.

Definition WAIT (fuel : nat) (args : list pyval) : M unit :=
  match args with
  | arg0 :: arg1 :: arg2 :: rest =>
      match io_type_of arg0 with
      | Some io_type =>
          let index := arg1 in
          let* status :=
            match arg2 with
            | VStr s => mret (String.eqb (upper s) "ON")
            | _ => raise AttributeError
                     ("'" +:+ type_name arg2 +:+ "' object has no attribute 'upper'")
            end in
          let* timeout :=
            match rest with
            | arg3 :: _ =>
                match as_number arg3 with
                | Some ms => mret (Some (ms / 1000)%Q)
                | None => raise TypeError
                            ("unsupported operand type(s) for /: '"
                             +:+ type_name arg3 +:+ "' and 'float'")
                end
            | [] => mret None
            end in
          let* start_time := time_now in
          write (add_log ("WAIT(" +:+ io_type +:+ ", " +:+ py_str index +:+ ", "
                          +:+ on_off status +:+ ")"));;
          wait_io fuel io_type index status timeout start_time
      | None =>
          let address := arg1 in
          let data_type := arg2 in
          let* value :=
            match rest with
            | arg3 :: _ => mret arg3
            | [] => raise IndexError "tuple index out of range"
            end in
          let* a :=
            match address with
            | VInt z => mret z
            | VBool b => mret (Z.b2z b)
            | VFloat _ | VStr _ =>
                raise ValueError
                  ("Unknown format code 'X' for object of type '"
                   +:+ type_name address +:+ "'")
            | VNone | VList _ =>
                raise TypeError
                  ("unsupported format string passed to "
                   +:+ type_name address +:+ ".__format__")
            end in
          write (add_log ("WAIT(Modbus, 0x" +:+ format_04X a +:+ ", "
                          +:+ py_str data_type +:+ ", " +:+ py_str value +:+ ")"));;
          wait_modbus fuel a data_type value
      end
  | _ => mret tt
  end.

(** [print], variadic: the arguments joined by single spaces *)
Definition print (args : list pyval) : M unit :=
  let message := String.concat " " (py_str <$> args) in
  write (add_log ("[PRINT] " +:+ message)).
End Primitives.

(** ** Script execution: [LuaInterpreter.execute_script] *)

(** The dictionary [execute_script] returns. *)
Record script_result : Type := mkResult {
  status : string;
  output : list string;
  error : option string
}.

Section Runtime.
(** [self.lua.execute(script_code)] with the host functions bound: the
    Lua engine itself is the embedded library, taken as given. *)
Variable lua_execute : string → M unit.

(** The two statements before the [try] *)
Definition start_script : M unit :=
  write clear_logs;;
  write (with_script_running true).

(** The [finally] clause *)
Definition finish (m : Machine) : Machine :=
  mkMachine (with_script_running false (dev m)) (time_calls m) (sleeps m).

Definition execute_script (script_code : string) : M script_result :=
  fun m =>
    match (start_script;; lua_execute script_code) m with
    | None => None
    | Some (Return _, m') =>
        Some (Return (mkResult "success" (get_logs (dev m')) None), finish m')
    | Some (Raise e, m') =>
        if is_Exception (exn_cls e)
        then Some (Return (mkResult "error" (get_logs (dev m')) (Some (exn_msg e))),
                   finish m')
        else Some (Raise e, finish m')
    end.
End Runtime.

(** ** A runtime for straight-line scripts

    Enough of a Lua engine to run closed examples: a table lists script
    sources with the sequence of host calls each one makes; any other
    source is a syntax error.  The theorems below hold for every runtime. *)

Inductive call : Type :=
  | CallDI (pin_index : Z) (length : option Z)
  | CallDO (pin_index : Z) (status_or_length status_num_or_delay delay_time : pyval)
  | CallExtDO (address_index pin_index : Z) (status : string) (delay_time : pyval)
  | CallMovP (point : point_ref)
  | CallMovL (point : point_ref)
  | CallMovJ (joint : Z) (degree : pyval)
  | CallWAIT (args : list pyval)
  | CallDELAY (delay_time : pyval)
  | CallReadModbus (address : Z) (size : string)
  | CallWriteModbus (address : Z) (size : string) (value : Z)
  | CallPrint (args : list pyval).

Section StraightLine.
Context `{Platform}.
Variable fuel : nat.

Definition exec_call (c : call) : M unit :=
  match c with
  | CallDI pin_index length => DI pin_index length;; mret tt
  | CallDO pin_index a b c => DO pin_index a b c
  | CallExtDO a p status delay_time => ExtDO a p status delay_time
  | CallMovP point => MovP point
  | CallMovL point => MovL point
  | CallMovJ joint degree => MovJ joint degree
  | CallWAIT args => WAIT fuel args
  | CallDELAY delay_time => DELAY delay_time
  | CallReadModbus address size => ReadModbus address size;; mret tt
  | CallWriteModbus address size value => WriteModbus address size value
  | CallPrint args => print args
  end.

Definition table_runtime (table : list (string * list call)) (script_code : string)
    : M unit :=
  match List.find (fun entry => String.eqb (fst entry) script_code) table with
  | Some (_, calls) => for_each calls exec_call
  | None => raise LuaSyntaxError "unexpected symbol"
  end.
End StraightLine.

(** ** A platform for closed examples

    Nothing else touches the state, the clock advances by ten
    milliseconds per reading, and a float prints as its decimal
    expansion (which is what Python prints for the short decimals used
    in the examples). *)

Fixpoint fraction_digits (fuel : nat) (r d : Z) : string :=
  match fuel with
  | O => ""
  | S fuel' =>
      if r =? 0 then ""
      else String (ascii_of_nat (48 + Z.to_nat (r * 10 / d)))
                  (fraction_digits fuel' (r * 10 mod d) d)
  end.

Definition decimal_repr (q : Q) : string :=
  let d := Zpos (Qden q) in
  let a := Z.abs (Qnum q) in
  let fraction := fraction_digits 17 (a mod d) d in
  (if Qnum q <? 0 then "-" else "") +:+ pretty (a / d) +:+ "."
  +:+ (if String.eqb fraction "" then "0" else fraction).

Definition quiet : Platform := {|
  time_time := fun k => (inject_Z (Z.of_nat k) / 100)%Q;
  concurrent := fun _ st => st;
  float_repr := decimal_repr
|}.

(** The same, except that during the script's first sleep another request
    handler enters [execute_script] and runs its first two statements. *)
Definition second_request : Platform := {|
  time_time := fun k => (inject_Z (Z.of_nat k) / 100)%Q;
  concurrent := fun k st =>
    match k with
    | O => with_script_running true (clear_logs st)
    | S _ => st
    end;
  float_repr := decimal_repr
|}.

Definition example_scripts : list (string * list call) :=
  [ ("DO(1,'ON'); DELAY(0.01); DO(1,'OFF'); WriteModbus(0x1000,'W',999); v=ReadModbus(0x1000,'W'); print(v)",
     [ CallDO 1 (VStr "ON") VNone VNone; CallDELAY (VFloat (1 # 100));
       CallDO 1 (VStr "OFF") VNone VNone; CallWriteModbus 0x1000 "W" 999;
       CallReadModbus 0x1000 "W"; CallPrint [VInt 999] ]);
    ("print(1)", [ CallPrint [VInt 1] ]);
    ("print('a'); DELAY(0.01); print('b')",
     [ CallPrint [VStr "a"]; CallDELAY (VFloat (1 # 100)); CallPrint [VStr "b"] ]);
    ("print('a'); DELAY(-1); print('b')",
     [ CallPrint [VStr "a"]; CallDELAY (VInt (-1)); CallPrint [VStr "b"] ]) ].

(** A script is running and has printed one line. *)
Definition busy : Machine :=
  mkMachine (add_log "[PRINT] a" (with_script_running true initial_state)) 0 0.

(** The point of the specification's example is stored in slot 5. *)
Definition taught : Machine :=
  mkMachine
    (set_global_point 5
       (<["name" := VStr "GL_P1"]> (<["x" := VInt 200]> (<["y" := VInt 200]>
        (<["z" := VInt (-100)]> ∅))))
       initial_state) 0 0.

(** ** Frame of a call *)

(** [st'] differs from [st] in the log at most. *)
Definition same_device (st st' : EmulatorState) : Prop :=
  di_state st' = di_state st
  ∧ do_state st' = do_state st
  ∧ ext_di_state st' = ext_di_state st
  ∧ ext_do_state st' = ext_do_state st
  ∧ modbus_registers st' = modbus_registers st
  ∧ current_position st' = current_position st
  ∧ joint_angles st' = joint_angles st
  ∧ global_points st' = global_points st
  ∧ motion_settings st' = motion_settings st
  ∧ script_running st' = script_running st.

(** ** [ReadPoint] *)




(** ** Request handlers of [routes/delta_api.py]

    Each handler is given the fields of its validated request and returns
    the dictionary it sends back.  The handlers run on request threads;
    they are written in the same monad so that they compose with the
    host functions in statements. *)

(** Response of [POST /api/di] *)
Inductive di_response : Type :=
  | DIValue (pin length value : Z)
  | DIStatus (pin : Z) (status : string).

(** [DigitalInputAPI.post]; [length] is [args.get('length')] *)
Definition di_post (pin : Z) (length : option Z) : M di_response :=
  match length with
  | Some n =>
      if n =? 0 then
        let* level := read (get_di pin) in
        mret (DIStatus pin (if level then "ON" else "OFF"))
      else
        let* st := read id in
        mret (DIValue pin n
                (pack_pins (fun q => get_di q st) pin (Z.to_nat n)))
  | None =>
      let* level := read (get_di pin) in
      mret (DIStatus pin (if level then "ON" else "OFF"))
  end.


Section Handlers.
Context `{Platform}.

End Handlers.

(** Response of [POST /api/modbus/read] and [/api/modbus/write] *)
Record modbus_response : Type := mkModbusResponse {
  mb_address : string;
  mb_size : string;
  mb_value : Z;
  mb_message : option string
}.

(** [ModbusReadAPI.post] *)
Definition modbus_read_post (address : Z) (size : string) : M modbus_response :=
  let size := upper size in
  let* value := read (read_modbus address size) in
  mret (mkModbusResponse ("0x" +:+ format_04X address) size value None).

(** [ModbusWriteAPI.post] *)
Definition modbus_write_post (address : Z) (size : string) (value : Z)
    : M modbus_response :=
  let size := upper size in
  write (write_modbus address value size);;
  mret (mkModbusResponse ("0x" +:+ format_04X address) size value
          (Some ("Written " +:+ pretty value +:+ " to address 0x"
                 +:+ format_04X address))).

(** [args.get(key, default)] on an optional request field *)
Definition field_or (default_value : pyval) (field : option pyval) : pyval :=
  match field with
  | Some v => v
  | None => default_value
  end.

(** The dictionary [SetPointAPI.post] stores *)
Definition rest_point_data (name x y z : pyval) (rx ry rz uf tf : option pyval)
    : gmap string pyval :=
  <["name" := name]> (<["x" := x]> (<["y" := y]> (<["z" := z]>
  (<["rx" := field_or (VFloat 0) rx]> (<["ry" := field_or (VFloat 0) ry]>
  (<["rz" := field_or (VFloat 0) rz]>
  (<["uf" := field_or (VInt 0) uf]> (<["tf" := field_or (VInt 0) tf]>
  (<["elbow" := VInt 0]> (<["shoulder" := VInt 0]> (<["flip" := VInt 0]>
  (<["jrc" := VList (replicate 8 0)]> ∅)))))))))))).

(** Response of [POST /api/point/set] *)
Record set_point_response : Type := mkSetPointResponse {
  sp_point_num : Z;
  sp_name : pyval;
  sp_message : string
}.

(** [SetPointAPI.post] *)
Definition set_point_post (point_num : Z) (name x y z : pyval)
    (rx ry rz uf tf : option pyval) : M set_point_response :=
  write (set_global_point point_num (rest_point_data name x y z rx ry rz uf tf));;
  mret (mkSetPointResponse point_num name
          ("Point " +:+ pretty point_num +:+ " set successfully")).

(** Response of [GET /api/point/get/<point_num>]: the body with status
    200, or the error text with status 404 *)
Inductive point_response : Type :=
  | PointOK (point_num : Z) (data : gmap string pyval)
  | PointNotFound (error_text : string).

(** [GetPointAPI.get] *)
Definition get_point_get (point_num : Z) : M point_response :=
  let* point_data := read (get_global_point (PointNum point_num)) in
  match point_data with
  | Some d =>
      if found point_data then mret (PointOK point_num d)
      else mret (PointNotFound ("Point " +:+ pretty point_num +:+ " not found"))
  | None => mret (PointNotFound ("Point " +:+ pretty point_num +:+ " not found"))
  end.

(** ** More invariants of the state *)


(** The point table has one entry per slot, and only slots 1..1000. *)
Definition points_wf (st : EmulatorState) : Prop :=
  NoDup (fst <$> global_points st)
  ∧ ∀ k d, (k, d) ∈ global_points st → 1 <= k <= 1000.

(** [st'] differs from [st] in the output table and the log at most. *)
Definition same_but_outputs (st st' : EmulatorState) : Prop :=
  di_state st' = di_state st
  ∧ ext_di_state st' = ext_di_state st
  ∧ ext_do_state st' = ext_do_state st
  ∧ modbus_registers st' = modbus_registers st
  ∧ current_position st' = current_position st
  ∧ joint_angles st' = joint_angles st
  ∧ global_points st' = global_points st
  ∧ motion_settings st' = motion_settings st
  ∧ script_running st' = script_running st.

(** Output [q] exists and is one of the [n] pins from [p] on *)
Definition in_window (p n q : Z) : bool :=
  (p <=? q) && (q <? p + n) && in_range 1 12 q.

(** * Properties *)

(** ** Registers *)

Lemma mask16_range (v : Z) : 0 <= Z.land v 0xFFFF <= 65535.
Proof.
  change (Z.land v 0xFFFF) with (Z.land v (Z.ones 16)).
  rewrite Z.land_ones; [| lia].
  pose proof (Z.mod_pos_bound v (2 ^ 16) ltac:(lia)). lia.
Qed.

Lemma split_join_halves (v : Z) :
  Z.lor (Z.shiftl (Z.land (Z.shiftr v 16) 0xFFFF) 16) (Z.land (Z.land v 0xFFFF) 0xFFFF)
  = Z.land v 0xFFFFFFFF.
Proof.
  change 0xFFFF with (Z.ones 16). change 0xFFFFFFFF with (Z.ones 32).
  apply Z.bits_inj'. intros n Hn.
  rewrite Z.lor_spec, !Z.land_spec, Z.shiftl_spec by lia.
  destruct (Z.lt_ge_cases n 16) as [Hlo | Hhi].
  - rewrite (Z.testbit_neg_r _ (n - 16)) by lia.
    rewrite (Z.testbit_ones_nonneg 16 n), (Z.testbit_ones_nonneg 32 n) by lia.
    replace (n <? 16) with true by (symmetry; apply Z.ltb_lt; lia).
    replace (n <? 32) with true by (symmetry; apply Z.ltb_lt; lia).
    now rewrite !andb_true_r.
  - rewrite Z.land_spec, Z.shiftr_spec by lia.
    replace (n - 16 + 16) with n by lia.
    rewrite (Z.testbit_ones_nonneg 16 n), (Z.testbit_ones_nonneg 32 n),
      (Z.testbit_ones_nonneg 16 (n - 16)) by lia.
    replace (n <? 16) with false by (symmetry; apply Z.ltb_ge; lia).
    rewrite !andb_false_r, orb_false_r. f_equal.
    destruct (Z.lt_ge_cases n 32).
    + transitivity true; [apply Z.ltb_lt | symmetry; apply Z.ltb_lt]; lia.
    + transitivity false; [apply Z.ltb_ge | symmetry; apply Z.ltb_ge]; lia.
Qed.

Lemma write_dword_low (a v : Z) (st : EmulatorState) :
  modbus_registers (write_modbus a v "DW" st) !! a = Some (Z.land v 0xFFFF).
Proof.
  cbn. rewrite lookup_insert_ne by lia. apply lookup_insert_eq.
Qed.

Lemma write_dword_high (a v : Z) (st : EmulatorState) :
  modbus_registers (write_modbus a v "DW" st) !! (a + 1)
  = Some (Z.land (Z.shiftr v 16) 0xFFFF).
Proof. cbn. apply lookup_insert_eq. Qed.

(** C2: a double-word write followed by a double-word read of the same
    address returns the value masked to 32 bits, at every address, for
    every integer value and in every state; the low half is stored at the
    address and the high half at the next one. *)
Theorem dword_round_trip (a v : Z) (st : EmulatorState) :
  read_modbus a "DW" (write_modbus a v "DW" st) = Z.land v 0xFFFFFFFF
  ∧ modbus_registers (write_modbus a v "DW" st) !! a = Some (Z.land v 0xFFFF)
  ∧ modbus_registers (write_modbus a v "DW" st) !! (a + 1)
    = Some (Z.land (Z.shiftr v 16) 0xFFFF).
Proof.
  split; [| split]; [| apply write_dword_low | apply write_dword_high].
  unfold read_modbus, reg_get. change (String.eqb "DW" "DW") with true. cbv iota.
  rewrite write_dword_low, write_dword_high. cbn [default].
  apply split_join_halves.
Qed.

Lemma write_modbus_keeps_16bit (a v : Z) (size : string) (st : EmulatorState) :
  registers_16bit st → registers_16bit (write_modbus a v size st).
Proof.
  intros Hst address value. unfold write_modbus.
  destruct (String.eqb size "DW"); cbn.
  - rewrite lookup_insert. case_decide as H1.
    { intros [= <-]. apply mask16_range. }
    rewrite lookup_insert. case_decide as H2.
    { intros [= <-]. apply mask16_range. }
    apply Hst.
  - rewrite lookup_insert. case_decide as H1.
    { intros [= <-]. apply mask16_range. }
    apply Hst.
Qed.

Lemma apply_op_keeps_16bit (o : op) (st : EmulatorState) :
  registers_16bit st → registers_16bit (apply_op o st).
Proof.
  intros Hst. destruct o; cbn [apply_op];
    try (apply write_modbus_keeps_16bit; exact Hst);
    try exact Hst.
  - unfold set_di. destruct (in_range 1 24 pin); exact Hst.
  - unfold set_do. destruct (in_range 1 12 pin); exact Hst.
  - unfold set_global_point. destruct (in_range 1 1000 point_num); exact Hst.
  - destruct (in_range 1 6 joint); exact Hst.
Qed.

Lemma run_ops_keeps_16bit (ops : list op) (st : EmulatorState) :
  registers_16bit st → registers_16bit (run_ops ops st).
Proof.
  revert st. induction ops as [| o ops IH]; intros st Hst; [exact Hst |].
  cbn. apply IH, apply_op_keeps_16bit, Hst.
Qed.

(** C8: register storage only ever holds values in 0..65535.  The invariant
    holds in the initial state, every write to the shared state preserves
    it, hence it holds after any sequence of writes; and [write_modbus]
    stores the value masked with 0xFFFF, whatever the width string. *)
Theorem registers_stay_16bit :
  registers_16bit initial_state
  ∧ (∀ o st, registers_16bit st → registers_16bit (apply_op o st))
  ∧ (∀ ops, registers_16bit (run_ops ops initial_state))
  ∧ (∀ a v size st,
       (size = "DW" →
          modbus_registers (write_modbus a v size st) !! a = Some (Z.land v 0xFFFF)
          ∧ modbus_registers (write_modbus a v size st) !! (a + 1)
            = Some (Z.land (Z.shiftr v 16) 0xFFFF))
       ∧ (size ≠ "DW" →
          modbus_registers (write_modbus a v size st) !! a = Some (Z.land v 0xFFFF))).
Proof.
  assert (Hinit : registers_16bit initial_state).
  { intros address value. cbn. rewrite lookup_empty. discriminate. }
  split; [exact Hinit |].
  split; [apply apply_op_keeps_16bit |].
  split; [intros ops; apply run_ops_keeps_16bit, Hinit |].
  intros a v size st. split.
  - intros ->. split; [apply write_dword_low | apply write_dword_high].
  - intros Hsize. unfold write_modbus.
    destruct (String.eqb_spec size "DW") as [-> | _]; [contradiction |].
    cbn. apply lookup_insert_eq.
Qed.

(** Witness of C8 on a trace that writes an oversized word and a negative
    double word. *)
Lemma registers_stay_16bit_witness :
  registers_16bit
    (run_ops [OpWriteModbus 0x1000 70000 "W"; OpWriteModbus 0x3000 (-1) "DW"]
       initial_state)
  ∧ modbus_registers (write_modbus 0x1000 70000 "W" initial_state) !! 0x1000
    = Some 4464.
Proof.
  split.
  - apply (proj1 (proj2 (proj2 registers_stay_16bit))).
  - apply (proj2 (proj2 (proj2 registers_stay_16bit))). discriminate.
Defined.

(** ** Built-in digital lines *)

Lemma all_off_lookup (lo hi pin : Z) (level : bool) :
  all_off lo hi !! pin = Some level → level = false.
Proof.
  unfold all_off. intros Hl. apply elem_of_list_to_map_2 in Hl.
  apply list_elem_of_fmap in Hl as (i & [= _ ->] & _). reflexivity.
Qed.

Lemma get_di_initial (pin : Z) : get_di pin initial_state = false.
Proof.
  unfold get_di. cbn [di_state initial_state].
  destruct (all_off 1 25 !! pin) as [level |] eqn:E; [| reflexivity].
  eapply all_off_lookup, E.
Qed.

Lemma get_do_initial (pin : Z) : get_do pin initial_state = false.
Proof.
  unfold get_do. cbn [do_state initial_state].
  destruct (all_off 1 13 !! pin) as [level |] eqn:E; [| reflexivity].
  eapply all_off_lookup, E.
Qed.

Lemma in_range_spec (lo hi pin : Z) : in_range lo hi pin = true ↔ lo <= pin <= hi.
Proof. unfold in_range. rewrite andb_true_iff, !Z.leb_le. reflexivity. Qed.

Lemma in_range_out (lo hi pin : Z) : ¬ lo <= pin <= hi → in_range lo hi pin = false.
Proof.
  intros Hout. destruct (in_range lo hi pin) eqn:E; [| reflexivity].
  apply in_range_spec in E. contradiction.
Qed.

Lemma get_di_set_di (q pin : Z) (b : bool) (st : EmulatorState) :
  get_di q (set_di pin b st)
  = if in_range 1 24 pin && (pin =? q) then b else get_di q st.
Proof.
  unfold set_di, get_di. destruct (in_range 1 24 pin); cbn; [| reflexivity].
  rewrite lookup_insert. destruct (Z.eqb_spec pin q); case_decide; congruence.
Qed.

Lemma get_do_set_do (q pin : Z) (b : bool) (st : EmulatorState) :
  get_do q (set_do pin b st)
  = if in_range 1 12 pin && (pin =? q) then b else get_do q st.
Proof.
  unfold set_do, get_do. destruct (in_range 1 12 pin); cbn; [| reflexivity].
  rewrite lookup_insert. destruct (Z.eqb_spec pin q); case_decide; congruence.
Qed.

(** A write that does not assign input [pin] leaves its level alone. *)
Lemma get_di_apply_op (pin : Z) (o : op) (st : EmulatorState) :
  sets_di pin o = false → get_di pin (apply_op o st) = get_di pin st.
Proof.
  destruct o; cbn [apply_op sets_di]; intros Hset; try reflexivity.
  - rewrite get_di_set_di. rewrite andb_comm, Hset. reflexivity.
  - unfold set_do. destruct (in_range 1 12 _); reflexivity.
  - unfold write_modbus. destruct (String.eqb _ _); reflexivity.
  - unfold set_global_point. destruct (in_range 1 1000 _); reflexivity.
  - destruct (in_range 1 6 _); reflexivity.
Qed.

Lemma get_do_apply_op (pin : Z) (o : op) (st : EmulatorState) :
  sets_do pin o = false → get_do pin (apply_op o st) = get_do pin st.
Proof.
  destruct o; cbn [apply_op sets_do]; intros Hset; try reflexivity.
  - unfold set_di. destruct (in_range 1 24 _); reflexivity.
  - rewrite get_do_set_do. rewrite andb_comm, Hset. reflexivity.
  - unfold write_modbus. destruct (String.eqb _ _); reflexivity.
  - unfold set_global_point. destruct (in_range 1 1000 _); reflexivity.
  - destruct (in_range 1 6 _); reflexivity.
Qed.

Lemma get_di_run_ops (pin : Z) (ops : list op) (st : EmulatorState) :
  Forall (fun o => sets_di pin o = false) ops →
  get_di pin (run_ops ops st) = get_di pin st.
Proof.
  revert st. induction ops as [| o ops IH]; intros st Hall; [reflexivity |].
  inversion Hall as [| ? ? Ho Hops]; subst. cbn.
  rewrite IH by exact Hops. apply get_di_apply_op, Ho.
Qed.

Lemma get_do_run_ops (pin : Z) (ops : list op) (st : EmulatorState) :
  Forall (fun o => sets_do pin o = false) ops →
  get_do pin (run_ops ops st) = get_do pin st.
Proof.
  revert st. induction ops as [| o ops IH]; intros st Hall; [reflexivity |].
  inversion Hall as [| ? ? Ho Hops]; subst. cbn.
  rewrite IH by exact Hops. apply get_do_apply_op, Ho.
Qed.

Lemma sets_di_out_of_range (pin : Z) (o : op) :
  ¬ 1 <= pin <= 24 → sets_di pin o = false.
Proof.
  intros Hout. destruct o; try reflexivity. cbn.
  destruct (Z.eqb_spec pin0 pin) as [-> |]; [| reflexivity].
  rewrite in_range_out by exact Hout. reflexivity.
Qed.

Lemma sets_do_out_of_range (pin : Z) (o : op) :
  ¬ 1 <= pin <= 12 → sets_do pin o = false.
Proof.
  intros Hout. destruct o; try reflexivity. cbn.
  destruct (Z.eqb_spec pin0 pin) as [-> |]; [| reflexivity].
  rewrite in_range_out by exact Hout. reflexivity.
Qed.

Lemma get_di_out_of_range (pin : Z) (ops : list op) :
  ¬ 1 <= pin <= 24 → get_di pin (run_ops ops initial_state) = false.
Proof.
  intros Hout. rewrite get_di_run_ops; [apply get_di_initial |].
  apply Forall_forall. intros o _. apply sets_di_out_of_range, Hout.
Qed.

Lemma get_do_out_of_range (pin : Z) (ops : list op) :
  ¬ 1 <= pin <= 12 → get_do pin (run_ops ops initial_state) = false.
Proof.
  intros Hout. rewrite get_do_run_ops; [apply get_do_initial |].
  apply Forall_forall. intros o _. apply sets_do_out_of_range, Hout.
Qed.

(** C3: a write to a pin outside 1..24 (inputs) or 1..12 (outputs) returns
    the state it was given, and such a pin reads false after any sequence
    of writes; more generally a pin, in range or not, reads false as long
    as no write of the sequence has assigned it. *)
Theorem out_of_range_pins_absorbed (p : Z) (x : bool) :
  (¬ 1 <= p <= 24 →
     (∀ st, set_di p x st = st)
     ∧ (∀ ops, get_di p (run_ops ops initial_state) = false))
  ∧ (¬ 1 <= p <= 12 →
     (∀ st, set_do p x st = st)
     ∧ (∀ ops, get_do p (run_ops ops initial_state) = false))
  ∧ (∀ ops, Forall (fun o => sets_di p o = false) ops →
            get_di p (run_ops ops initial_state) = false)
  ∧ (∀ ops, Forall (fun o => sets_do p o = false) ops →
            get_do p (run_ops ops initial_state) = false).
Proof.
  split; [| split; [| split]].
  - intros Hout. split.
    + intros st. unfold set_di. rewrite in_range_out by exact Hout. reflexivity.
    + intros ops. apply get_di_out_of_range, Hout.
  - intros Hout. split.
    + intros st. unfold set_do. rewrite in_range_out by exact Hout. reflexivity.
    + intros ops. apply get_do_out_of_range, Hout.
  - intros ops Hall. rewrite get_di_run_ops by exact Hall. apply get_di_initial.
  - intros ops Hall. rewrite get_do_run_ops by exact Hall. apply get_do_initial.
Qed.

(** Witness of C3: pin 25 is outside both ranges; writing it ON changes
    nothing, and it reads OFF after a trace that tries to set it. *)
Lemma out_of_range_pins_absorbed_witness :
  ¬ 1 <= 25 <= 24
  ∧ set_di 25 true initial_state = initial_state
  ∧ get_di 25 (run_ops [OpSetDI 25 true; OpSetDI 3 true] initial_state) = false
  ∧ set_do 25 true initial_state = initial_state
  ∧ get_do 25 (run_ops [OpSetDO 25 true; OpSetDO 3 true] initial_state) = false.
Proof.
  assert (H24 : ¬ 1 <= 25 <= 24) by lia.
  assert (H12 : ¬ 1 <= 25 <= 12) by lia.
  pose proof (out_of_range_pins_absorbed 25 true) as (Hdi & Hdo & _ & _).
  destruct (Hdi H24) as [Hset_di Hget_di].
  destruct (Hdo H12) as [Hset_do Hget_do].
  split; [exact H24 |].
  split; [apply Hset_di |].
  split; [apply Hget_di |].
  split; [apply Hset_do | apply Hget_do].
Defined.

(** ** Packed reads *)

Lemma pack_pins_S (get : Z → bool) (p : Z) (n : nat) :
  pack_pins get p (S n)
  = if get (p + Z.of_nat n)
    then Z.lor (pack_pins get p n) (Z.shiftl 1 (Z.of_nat n))
    else pack_pins get p n.
Proof. unfold pack_pins. rewrite seq_S, fold_left_app. reflexivity. Qed.

Lemma pack_pins_nonneg (get : Z → bool) (p : Z) (n : nat) : 0 <= pack_pins get p n.
Proof.
  induction n as [| n IH]; [reflexivity |].
  rewrite pack_pins_S. destruct (get _); [| exact IH].
  apply Z.lor_nonneg. split; [exact IH |]. apply Z.shiftl_nonneg. lia.
Qed.

Lemma pack_pins_ext (get get' : Z → bool) (p : Z) (n : nat) :
  (∀ q, get q = get' q) → pack_pins get p n = pack_pins get' p n.
Proof.
  intros Hext. induction n as [| n IH]; [reflexivity |].
  rewrite !pack_pins_S, IH, Hext. reflexivity.
Qed.

(** Bit [i] of the packed value is the level of pin [p + i], for the
    [n] pins read; the higher bits are clear. *)
Lemma pack_pins_testbit (get : Z → bool) (p : Z) (n : nat) (i : Z) :
  0 <= i →
  Z.testbit (pack_pins get p n) i = (i <? Z.of_nat n) && get (p + i).
Proof.
  intros Hi. induction n as [| n IH].
  - cbn. rewrite Z.testbit_0_l. symmetry. apply andb_false_iff. left.
    apply Z.ltb_ge. lia.
  - rewrite pack_pins_S.
    assert (Hbit : Z.testbit (Z.shiftl 1 (Z.of_nat n)) i = (Z.of_nat n =? i)).
    { rewrite Z.shiftl_1_l. apply Z.pow2_bits_eqb. lia. }
    destruct (Z.eqb_spec (Z.of_nat n) i) as [<- | Hne].
    + replace (Z.of_nat n <? Z.of_nat (S n)) with true
        by (symmetry; apply Z.ltb_lt; lia).
      destruct (get (p + Z.of_nat n)) eqn:Hget.
      * rewrite Z.lor_spec, Hbit. apply orb_true_r.
      * rewrite IH. replace (Z.of_nat n <? Z.of_nat n) with false
          by (symmetry; apply Z.ltb_ge; lia). reflexivity.
    + assert (Hlt : (i <? Z.of_nat (S n)) = (i <? Z.of_nat n)).
      { destruct (Z.ltb_spec i (Z.of_nat n)).
        - apply Z.ltb_lt. lia.
        - apply Z.ltb_ge. lia. }
      rewrite Hlt. destruct (get (p + Z.of_nat n)).
      * rewrite Z.lor_spec, Hbit, IH. apply orb_false_r.
      * exact IH.
Qed.

(** C7: with a length, [DI] returns the non-negative integer whose bit [i]
    is the level of input [p + i] for [0 <= i < n] and 0 above (bit 0
    least significant), and leaves the state alone; an input outside 1..24
    reads false after any sequence of writes, so it contributes 0.  Without
    a length, [DI] returns "ON" for a set pin and "OFF" otherwise. *)
Theorem DI_contract (p : Z) (m : Machine) :
  (∀ n : Z, ∃ r : Z,
      DI p (Some n) m = Some (Return (VInt r), m)
      ∧ 0 <= r
      ∧ ∀ i, 0 <= i → Z.testbit r i = (i <? n) && get_di (p + i) (dev m))
  ∧ DI p None m
    = Some (Return (VStr (if get_di p (dev m) then "ON" else "OFF")), m)
  ∧ (∀ ops q, ¬ 1 <= q <= 24 → get_di q (run_ops ops initial_state) = false).
Proof.
  split; [| split].
  - intros n.
    exists (pack_pins (fun pin => get_di pin (dev m)) p (Z.to_nat n)).
    split; [reflexivity |]. split; [apply pack_pins_nonneg |].
    intros i Hi. rewrite pack_pins_testbit by exact Hi. f_equal.
    destruct (Z.ltb_spec i n).
    + apply Z.ltb_lt. lia.
    + apply Z.ltb_ge. lia.
  - reflexivity.
  - intros ops q Hout. apply get_di_out_of_range, Hout.
Qed.

(** Witness of C7: inputs 23 and 24 set, five pins read from 22; pins 25
    and 26 do not exist and contribute 0. *)
Lemma DI_contract_witness :
  DI 22 (Some 5)
     (mkMachine (run_ops [OpSetDI 23 true; OpSetDI 24 true] initial_state) 0 0)
  = Some (Return (VInt 6),
          mkMachine (run_ops [OpSetDI 23 true; OpSetDI 24 true] initial_state) 0 0)
  ∧ DI 24 None
       (mkMachine (run_ops [OpSetDI 23 true; OpSetDI 24 true] initial_state) 0 0)
    = Some (Return (VStr "ON"),
            mkMachine (run_ops [OpSetDI 23 true; OpSetDI 24 true] initial_state) 0 0)
  ∧ get_di 25 (run_ops [OpSetDI 23 true; OpSetDI 24 true] initial_state) = false.
Proof.
  destruct (DI_contract 24
              (mkMachine (run_ops [OpSetDI 23 true; OpSetDI 24 true] initial_state) 0 0))
    as (_ & Hone & Hout).
  split; [reflexivity |].
  split; [exact Hone |].
  apply (Hout [OpSetDI 23 true; OpSetDI 24 true] 25). lia.
Defined.

(** ** Digital outputs *)

Section OutputProperties.
Context `{Platform}.

(** The state [DO(p, 4, 10)], 10 being binary 1010, leaves, pin by pin. *)
Lemma DO_four_pins (p : Z) (m : Machine) :
  ∃ line,
    DO p (VInt 4) (VInt 10) VNone m
    = Some (Return tt,
            mkMachine
              (add_log line
                 (set_do (p + 3) true (set_do (p + 2) false
                 (set_do (p + 1) true (set_do (p + 0) false (dev m))))))
              (time_calls m) (sleeps m)).
Proof. eexists. reflexivity. Qed.

Lemma get_di_set_do (q pin : Z) (b : bool) (st : EmulatorState) :
  get_di q (set_do pin b st) = get_di q st.
Proof. unfold set_do. destruct (in_range 1 12 pin); reflexivity. Qed.

(** C4, as amended: for [p .. p+3] valid outputs, [DO(p, 4, 10)] (10 is
    binary 1010) returns, and packing the four outputs the way [DI]
    packs inputs (bit [i] from [get_do(p + i)]) gives back 10.  [DI(p, 4)]
    itself reads the input lines, which the call has not touched: it
    returns what it returned before. *)
Theorem DO_pattern_read_back (p : Z) (m : Machine) :
  1 <= p → p + 3 <= 12 →
  ∃ m',
    DO p (VInt 4) (VInt 10) VNone m = Some (Return tt, m')
    ∧ pack_pins (fun pin => get_do pin (dev m')) p 4 = 10
    ∧ DI p (Some 4) m'
      = Some (Return (VInt (pack_pins (fun pin => get_di pin (dev m)) p 4)), m').
Proof.
  intros Hlo Hhi. destruct (DO_four_pins p m) as [line HDO].
  eexists. split; [exact HDO |]. split.
  - cbn [dev]. unfold pack_pins. cbn [seq fold_left Z.of_nat Pos.of_succ_nat Pos.succ].
    assert (Hlog : ∀ q st, get_do q (add_log line st) = get_do q st)
      by reflexivity.
    rewrite !Hlog, !get_do_set_do.
    repeat match goal with
           | |- context [in_range 1 12 ?q] =>
               rewrite (proj2 (in_range_spec 1 12 q)) by lia
           end.
    repeat match goal with
           | |- context [?a =? ?b] =>
               first [ rewrite (proj2 (Z.eqb_eq a b)) by lia
                     | rewrite (proj2 (Z.eqb_neq a b)) by lia ]
           end.
    reflexivity.
  - unfold DI, bind, read, mret, M_ret, ret, id. cbn [dev].
    do 4 f_equal. apply pack_pins_ext. intros q.
    assert (Hlog : ∀ st, get_di q (add_log line st) = get_di q st)
      by reflexivity.
    rewrite Hlog, !get_di_set_do. reflexivity.
Qed.

End OutputProperties.

(** Counterexample to C4 as stated: after [DO(1, 4, 10)] on the initial
    state, [DI(1, 4)] returns 0, not 10: it reads the inputs. *)
Lemma DO_then_DI_reads_inputs :
  fst <$> (@DO quiet 1 (VInt 4) (VInt 10) VNone;; DI 1 (Some 4)) boot
  = Some (Return (VInt 0))
  ∧ VInt 0 ≠ VInt 10.
Proof. split; [reflexivity | discriminate]. Qed.

(** Witness of C4 as amended, on outputs 9..12 of the initial state. *)
Lemma DO_pattern_read_back_witness :
  ∃ m',
    @DO quiet 9 (VInt 4) (VInt 10) VNone boot = Some (Return tt, m')
    ∧ pack_pins (fun pin => get_do pin (dev m')) 9 4 = 10
    ∧ DI 9 (Some 4) m'
      = Some (Return (VInt (pack_pins (fun pin => get_di pin (dev boot)) 9 4)), m').
Proof. apply (@DO_pattern_read_back quiet 9 boot); lia. Defined.



(** ** Motion to a point *)

Section MotionProperties.
Context `{Platform}.

Lemma move_to_point_not_found (fname : string) (point : point_ref) (m : Machine) :
  found (get_global_point point (dev m)) = false →
  move_to_point fname point m
  = Some (Return tt,
          mkMachine
            (add_log (fname +:+ "(" +:+ ref_str point +:+ ") - Point not found")
               (dev m))
            (time_calls m) (sleeps m)).
Proof.
  intros Hnf. unfold move_to_point, bind, read.
  destruct (get_global_point point (dev m)) as [d |]; [| reflexivity].
  rewrite Hnf. reflexivity.
Qed.

(** C9: when the reference resolves to no stored point, [MovP] and [MovL]
    return normally; position, joint angles and every other field of
    the device state are as before, and the log has grown by exactly the
    one line "MovP(ref) - Point not found" (resp. "MovL"). *)
Theorem move_to_unknown_point (point : point_ref) (m : Machine) :
  found (get_global_point point (dev m)) = false →
  (∃ m',
      MovP point m = Some (Return tt, m')
      ∧ same_device (dev m) (dev m')
      ∧ script_output (dev m')
        = (script_output (dev m)
           ++ ["MovP(" +:+ ref_str point +:+ ") - Point not found"])%list)
  ∧ (∃ m',
      MovL point m = Some (Return tt, m')
      ∧ same_device (dev m) (dev m')
      ∧ script_output (dev m')
        = (script_output (dev m)
           ++ ["MovL(" +:+ ref_str point +:+ ") - Point not found"])%list).
Proof.
  intros Hnf. split; eexists;
    (split; [apply move_to_point_not_found, Hnf |]);
    (split; [repeat split | reflexivity]).
Qed.
End MotionProperties.

(** Witness of C9: the name GL_P2 is unknown when only slot 5, named
    GL_P1, is stored. *)
Lemma move_to_unknown_point_witness :
  (∃ m',
      @MovP quiet (PointName "GL_P2") taught = Some (Return tt, m')
      ∧ same_device (dev taught) (dev m')
      ∧ script_output (dev m') = ["MovP(GL_P2) - Point not found"])
  ∧ (∃ m',
      @MovL quiet (PointName "GL_P2") taught = Some (Return tt, m')
      ∧ same_device (dev taught) (dev m')
      ∧ script_output (dev m') = ["MovL(GL_P2) - Point not found"]).
Proof.
  apply (@move_to_unknown_point quiet (PointName "GL_P2") taught). reflexivity.
Defined.

Example move_to_known_point :
  (current_position ∘ dev ∘ snd) <$> @MovP quiet (PointName "GL_P1") taught
  = Some (mkPosition (VInt 200) (VInt 200) (VInt (-100)) (VInt 0) (VInt 0) (VInt 0)).
Proof. reflexivity. Qed.

(** ** Waiting on a line *)

Section WaitProperties.
Context `{Platform}.




Lemma io_type_of_kind (kind : string) :
  upper kind = "DI" ∨ upper kind = "DO" →
  io_type_of (VStr kind) = Some (upper kind).
Proof. intros [E | E]; unfold io_type_of; rewrite E; reflexivity. Qed.


End WaitProperties.


(** With no timeout argument, or with 0, an input that stays OFF is
    polled for as long as the bound allows; with 30 ms the same call gives
    up and logs the timeout. *)
Example WAIT_on_a_line_that_stays_off :
  @WAIT quiet 50 [VStr "DI"; VInt 1; VStr "ON"] boot = None
  ∧ @WAIT quiet 50 [VStr "DI"; VInt 1; VStr "ON"; VInt 0] boot = None
  ∧ (script_output ∘ dev ∘ snd) <$> @WAIT quiet 50 [VStr "DI"; VInt 1; VStr "ON"; VInt 30] boot
    = Some ["WAIT(DI, 1, ON)"; "WAIT timeout"].
Proof. repeat (split; [vm_compute; reflexivity |]). vm_compute. reflexivity. Qed.


(** ** Script execution *)

Section RuntimeProperties.
Variable lua_execute : string → M unit.

(** The machine on which the interpreter starts: log cleared, flag set. *)
Lemma start_script_runs (m : Machine) :
  start_script m
  = Some (Return tt,
          mkMachine (with_script_running true (clear_logs (dev m)))
                    (time_calls m) (sleeps m)).
Proof. reflexivity. Qed.

(** C6: when interpreting the script raises an exception (any instance of
    [Exception]: a Lua syntax or runtime error, or what a misused host
    function raises), [execute_script] returns normally the result with
    status "error", the log as it stood when the exception was raised
    and the exception's message, and leaves [script_running] false. *)
Theorem script_error_is_reported (script_code : string) (m m' : Machine) (e : exn) :
  lua_execute script_code
    (mkMachine (with_script_running true (clear_logs (dev m)))
               (time_calls m) (sleeps m))
  = Some (Raise e, m') →
  is_Exception (exn_cls e) = true →
  execute_script lua_execute script_code m
  = Some (Return (mkResult "error" (script_output (dev m')) (Some (exn_msg e))),
          finish m')
  ∧ script_running (dev (finish m')) = false.
Proof.
  intros Hrun Hexn. split; [| reflexivity].
  unfold execute_script, mbind, M_bind, bind. rewrite start_script_runs, Hrun, Hexn.
  reflexivity.
Qed.

(** C1, as amended: an invocation made while [script_running] is set is
    not rejected.  [execute_script] never reads the flag: the call does
    what it does from the idle state, starting the interpreter on a
    cleared log (the lines the running script has logged so far are
    gone); whenever it returns a result the status is "success" or
    "error" and the flag is false. *)
Theorem execute_script_ignores_running (script_code : string) (m : Machine) :
  script_running (dev m) = true →
  execute_script lua_execute script_code m
  = execute_script lua_execute script_code (finish m)
  ∧ (∃ m0, start_script m = Some (Return tt, m0)
           ∧ script_output (dev m0) = []
           ∧ script_running (dev m0) = true)
  ∧ ∀ r m',
      execute_script lua_execute script_code m = Some (Return r, m') →
      (status r = "success" ∨ status r = "error")
      ∧ script_running (dev m') = false.
Proof.
  intros _. split; [reflexivity |].
  split; [eexists; split; [apply start_script_runs | split; reflexivity] |].
  intros r m'. unfold execute_script.
  destruct ((start_script;; lua_execute script_code) m) as [[[[] | e] m1] |];
    [| destruct (is_Exception (exn_cls e)) |]; intros [= <- <-]; split;
    try reflexivity; [left | right]; reflexivity.
Qed.
End RuntimeProperties.

(** Witness of C6: the script prints a line and then calls [DELAY(-1)],
    which raises ValueError; the result carries the two lines logged so
    far and the message. *)
Lemma script_error_is_reported_witness :
  execute_script (@table_runtime quiet 10 example_scripts)
    "print('a'); DELAY(-1); print('b')" boot
  = Some (Return (mkResult "error" ["[PRINT] a"; "DELAY(-1s)"]
                    (Some "sleep length must be non-negative")),
          mkMachine
            (add_log "DELAY(-1s)" (add_log "[PRINT] a" initial_state)) 0 0)
  ∧ script_running (add_log "DELAY(-1s)" (add_log "[PRINT] a" initial_state)) = false.
Proof.
  exact (script_error_is_reported (@table_runtime quiet 10 example_scripts)
           "print('a'); DELAY(-1); print('b')" boot
           (mkMachine
              (add_log "DELAY(-1s)"
                 (add_log "[PRINT] a" (with_script_running true initial_state))) 0 0)
           (mkExn ValueError "sleep length must be non-negative")
           eq_refl eq_refl).
Defined.

(** Counterexample to C1 as stated.  A script is running and has logged
    one line.  A second invocation is not rejected: it returns "success",
    the status of any completed run, and it has replaced the running
    script's log and cleared the running flag.  And the result of a
    running script does depend on a second invocation: when another
    handler enters [execute_script] during the script's sleep, the lines
    the script had logged before are missing from its output. *)
Lemma second_invocation_not_rejected :
  script_running (dev busy) = true
  ∧ script_output (dev busy) = ["[PRINT] a"]
  ∧ fst <$> execute_script (@table_runtime quiet 10 example_scripts) "print(1)" busy
    = Some (Return (mkResult "success" ["[PRINT] 1"] None))
  ∧ (script_running ∘ dev ∘ snd)
      <$> execute_script (@table_runtime quiet 10 example_scripts) "print(1)" busy
    = Some false
  ∧ fst <$> execute_script (@table_runtime quiet 10 example_scripts)
              "print('a'); DELAY(0.01); print('b')" boot
    = Some (Return (mkResult "success" ["[PRINT] a"; "DELAY(0.01s)"; "[PRINT] b"] None))
  ∧ fst <$> execute_script (@table_runtime second_request 10 example_scripts)
              "print('a'); DELAY(0.01); print('b')" boot
    = Some (Return (mkResult "success" ["[PRINT] b"] None)).
Proof. repeat (split; [vm_compute; reflexivity |]). vm_compute. reflexivity. Qed.

(** Witness of C1 as amended. *)
Lemma execute_script_ignores_running_witness :
  execute_script (@table_runtime quiet 10 example_scripts) "print(1)" busy
  = execute_script (@table_runtime quiet 10 example_scripts) "print(1)" (finish busy).
Proof.
  apply (execute_script_ignores_running (@table_runtime quiet 10 example_scripts)
           "print(1)" busy).
  reflexivity.
Defined.

(** The end-to-end scenario of the specification. *)
Example end_to_end :
  ∃ m',
    execute_script (@table_runtime quiet 10 example_scripts)
      "DO(1,'ON'); DELAY(0.01); DO(1,'OFF'); WriteModbus(0x1000,'W',999); v=ReadModbus(0x1000,'W'); print(v)"
      boot
    = Some (Return (mkResult "success"
                      ["DO(1, ON)"; "DELAY(0.01s)"; "DO(1, OFF)";
                       "WriteModbus(0x1000, W, 999)"; "ReadModbus(0x1000, W) = 999";
                       "[PRINT] 999"] None), m')
    ∧ get_do 1 (dev m') = false
    ∧ read_modbus 0x1000 "W" (dev m') = 999.
Proof. eexists. split; [vm_compute; reflexivity |]. split; vm_compute; reflexivity. Qed.


(** * Further properties of the device state *)

(** ** Registers *)

Lemma reg_get_write_word (a a' v : Z) (size : string) (st : EmulatorState) :
  size ≠ "DW" →
  reg_get a' (write_modbus a v size st)
  = if a' =? a then Z.land v 0xFFFF else reg_get a' st.
Proof.
  intros Hsize. unfold write_modbus, reg_get.
  destruct (String.eqb_spec size "DW") as [-> | _]; [contradiction |].
  cbn. rewrite lookup_insert.
  destruct (Z.eqb_spec a' a); case_decide; try congruence; reflexivity.
Qed.

Lemma reg_get_write_dword (a a' v : Z) (st : EmulatorState) :
  reg_get a' (write_modbus a v "DW" st)
  = if a' =? a then Z.land v 0xFFFF
    else if a' =? a + 1 then Z.land (Z.shiftr v 16) 0xFFFF
    else reg_get a' st.
Proof.
  unfold write_modbus, reg_get. cbn. rewrite !lookup_insert.
  destruct (Z.eqb_spec a' a); destruct (Z.eqb_spec a' (a + 1));
    repeat case_decide; try lia; reflexivity.
Qed.

Lemma read_modbus_word (a : Z) (size : string) (st : EmulatorState) :
  size ≠ "DW" → read_modbus a size st = reg_get a st.
Proof.
  intros Hsize. unfold read_modbus.
  destruct (String.eqb_spec size "DW") as [-> | _]; [contradiction | reflexivity].
Qed.

(** X1: with any width string other than "DW" (so "W", but also "dw" or
    the empty string) a write followed by a read of the same address with
    such a width returns the value masked to 16 bits: the high bits of the
    value are dropped, and a negative value comes back as its 16-bit
    two's complement. *)
Theorem word_round_trip (a v : Z) (size size' : string) (st : EmulatorState) :
  size ≠ "DW" → size' ≠ "DW" →
  read_modbus a size' (write_modbus a v size st) = Z.land v 0xFFFF
  ∧ 0 <= read_modbus a size' (write_modbus a v size st) <= 65535.
Proof.
  intros Hs Hs'. rewrite read_modbus_word by exact Hs'.
  rewrite reg_get_write_word by exact Hs. rewrite Z.eqb_refl.
  split; [reflexivity | apply mask16_range].
Qed.

Lemma word_round_trip_witness :
  read_modbus 0x1000 "W" (write_modbus 0x1000 0x12345 "dw" initial_state) = 0x2345
  ∧ read_modbus 0x1000 "W" (write_modbus 0x1000 (-1) "W" initial_state) = 65535.
Proof.
  split.
  - apply (word_round_trip 0x1000 0x12345 "dw" "W" initial_state); discriminate.
  - apply (word_round_trip 0x1000 (-1) "W" "W" initial_state); discriminate.
Defined.

(** X2: a write touches only its own cells.  A word write at [a] leaves
    the register at every other address as it was; a double-word write
    at [a] leaves every address other than [a] and [a + 1] as it was. *)
Theorem write_modbus_frame (a a' v : Z) (size : string) (st : EmulatorState) :
  a' ≠ a →
  (size = "DW" → a' ≠ a + 1) →
  reg_get a' (write_modbus a v size st) = reg_get a' st
  ∧ read_modbus a' "W" (write_modbus a v size st) = read_modbus a' "W" st.
Proof.
  intros Ha Ha1.
  assert (Hreg : reg_get a' (write_modbus a v size st) = reg_get a' st).
  { destruct (String.eqb_spec size "DW") as [-> | Hsize].
    - rewrite reg_get_write_dword.
      rewrite (proj2 (Z.eqb_neq a' a) Ha).
      rewrite (proj2 (Z.eqb_neq a' (a + 1)) (Ha1 eq_refl)). reflexivity.
    - rewrite reg_get_write_word by exact Hsize.
      rewrite (proj2 (Z.eqb_neq a' a) Ha). reflexivity. }
  split; [exact Hreg |]. unfold read_modbus. cbn. exact Hreg.
Qed.

Lemma write_modbus_frame_witness :
  reg_get 0x1002 (write_modbus 0x1000 (-1) "DW" initial_state)
  = reg_get 0x1002 initial_state.
Proof.
  apply (write_modbus_frame 0x1000 0x1002 (-1) "DW" initial_state).
  - lia.
  - intros _. lia.
Defined.

(** X3: the two halves of a double word are ordinary cells.  After a
    double-word write at [a], a word read at [a] gives the low 16 bits and
    a word read at [a + 1] the next 16 bits; and a double-word read at
    [a] after two word writes at [a] and [a + 1] composes them, low half
    first. *)
Theorem dword_is_two_words (a v lo hi : Z) (st : EmulatorState) :
  read_modbus a "W" (write_modbus a v "DW" st) = Z.land v 0xFFFF
  ∧ read_modbus (a + 1) "W" (write_modbus a v "DW" st)
    = Z.land (Z.shiftr v 16) 0xFFFF
  ∧ read_modbus a "DW" (write_modbus (a + 1) hi "W" (write_modbus a lo "W" st))
    = Z.lor (Z.shiftl (Z.land hi 0xFFFF) 16) (Z.land lo 0xFFFF).
Proof.
  split; [| split].
  - unfold read_modbus. cbn [String.eqb Ascii.eqb Bool.eqb].
    rewrite reg_get_write_dword, Z.eqb_refl. reflexivity.
  - unfold read_modbus. cbn [String.eqb Ascii.eqb Bool.eqb].
    rewrite reg_get_write_dword, Z.eqb_refl.
    rewrite (proj2 (Z.eqb_neq (a + 1) a)) by lia. reflexivity.
  - unfold read_modbus. cbn [String.eqb Ascii.eqb Bool.eqb].
    rewrite !reg_get_write_word by discriminate.
    rewrite !Z.eqb_refl. rewrite (proj2 (Z.eqb_neq a (a + 1))) by lia.
    f_equal. change (Z.land (Z.land lo 0xFFFF) 0xFFFF)
      with (Z.land (Z.land lo (Z.ones 16)) (Z.ones 16)).
    rewrite <- Z.land_assoc, Z.land_diag. reflexivity.
Qed.

(** X4: in every state reached from the initial one by writes, a word
    read is in 0..65535 and a double-word read in 0..4294967295, at every
    address; an address never written reads 0. *)
Theorem reads_in_range (ops : list op) (a : Z) (size : string) :
  0 <= read_modbus a size (run_ops ops initial_state) <= 4294967295
  ∧ (size ≠ "DW" → 0 <= read_modbus a size (run_ops ops initial_state) <= 65535)
  ∧ read_modbus a size initial_state = 0.
Proof.
  pose proof (run_ops_keeps_16bit ops initial_state) as Hinv.
  assert (Hinit : registers_16bit initial_state).
  { intros address value. cbn. rewrite lookup_empty. discriminate. }
  specialize (Hinv Hinit). set (st := run_ops ops initial_state) in *.
  assert (Hcell : ∀ x, 0 <= reg_get x st <= 65535).
  { intros x. unfold reg_get.
    destruct (modbus_registers st !! x) as [value |] eqn:E; cbn; [| lia].
    apply (Hinv x value E). }
  split; [| split].
  - unfold read_modbus. destruct (String.eqb size "DW").
    + pose proof (Hcell a) as Hlo. pose proof (Hcell (a + 1)) as Hhi.
      set (low := reg_get a st) in *. set (high := reg_get (a + 1) st) in *.
      assert (Hl : Z.land low 0xFFFF = low).
      { change 0xFFFF with (Z.ones 16). rewrite Z.land_ones by lia.
        apply Z.mod_small. lia. }
      rewrite Hl, Z.shiftl_mul_pow2 by lia.
      assert (Hdisj : Z.land (high * 2 ^ 16) low = 0).
      { apply Z.bits_inj'. intros n Hn. rewrite Z.land_spec, Z.bits_0.
        destruct (Z.lt_ge_cases n 16).
        - rewrite Z.mul_pow2_bits_low by lia. reflexivity.
        - rewrite (Z.bits_above_log2 low n); [apply andb_false_r | lia |].
          destruct (Z.eq_dec low 0) as [-> | Hnz]; [cbn; lia |].
          apply Z.log2_lt_pow2; [lia |].
          apply Z.lt_le_trans with (2 ^ 16); [lia |].
          apply Z.pow_le_mono_r; lia. }
      rewrite <- Z.add_nocarry_lor by exact Hdisj. lia.
    + pose proof (Hcell a). lia.
  - intros Hsize. rewrite read_modbus_word by exact Hsize. apply Hcell.
  - unfold read_modbus, reg_get. cbn. rewrite !lookup_empty. cbn.
    destruct (String.eqb size "DW"); reflexivity.
Qed.

Lemma reads_in_range_witness :
  0 <= read_modbus 0x1000 "W"
         (run_ops [OpWriteModbus 0x1000 (-5) "DW"] initial_state) <= 65535.
Proof.
  apply (reads_in_range [OpWriteModbus 0x1000 (-5) "DW"] 0x1000 "W").
  discriminate.
Defined.

(** ** Built-in digital lines *)





(** X6: a level written to a valid pin is the level read back, every
    other pin of the same table keeps its level, and the other table is
    not touched: inputs and outputs are separate lines even where their
    numbers coincide. *)
Theorem pin_write_read (p : Z) (b : bool) (st : EmulatorState) :
  (1 <= p <= 24 →
     get_di p (set_di p b st) = b
     ∧ (∀ q, q ≠ p → get_di q (set_di p b st) = get_di q st)
     ∧ (∀ q, get_do q (set_di p b st) = get_do q st))
  ∧ (1 <= p <= 12 →
     get_do p (set_do p b st) = b
     ∧ (∀ q, q ≠ p → get_do q (set_do p b st) = get_do q st)
     ∧ (∀ q, get_di q (set_do p b st) = get_di q st)).
Proof.
  split; intros Hp.
  - split; [| split].
    + rewrite get_di_set_di, (proj2 (in_range_spec 1 24 p) Hp), Z.eqb_refl.
      reflexivity.
    + intros q Hq. rewrite get_di_set_di.
      rewrite (proj2 (Z.eqb_neq p q)) by congruence.
      rewrite andb_false_r. reflexivity.
    + intros q. unfold set_di. destruct (in_range 1 24 p); reflexivity.
  - split; [| split].
    + rewrite get_do_set_do, (proj2 (in_range_spec 1 12 p) Hp), Z.eqb_refl.
      reflexivity.
    + intros q Hq. rewrite get_do_set_do.
      rewrite (proj2 (Z.eqb_neq p q)) by congruence.
      rewrite andb_false_r. reflexivity.
    + intros q. unfold set_do. destruct (in_range 1 12 p); reflexivity.
Qed.

Lemma pin_write_read_witness :
  get_di 12 (set_di 12 true initial_state) = true
  ∧ get_do 12 (set_di 12 true initial_state) = get_do 12 initial_state.
Proof.
  destruct (pin_write_read 12 true initial_state) as [Hdi _].
  destruct (Hdi ltac:(lia)) as (Hsame & _ & Hother).
  split; [exact Hsame | apply Hother].
Defined.

(** ** The point table *)

Lemma dict_get_set_eq {V} (k : Z) (v : V) (d : list (Z * V)) :
  dict_get k (dict_set k v d) = Some v.
Proof.
  induction d as [| [k' v'] d IH]; cbn.
  - rewrite Z.eqb_refl. reflexivity.
  - destruct (Z.eqb_spec k' k) as [-> | Hne]; cbn.
    + rewrite Z.eqb_refl. reflexivity.
    + rewrite (proj2 (Z.eqb_neq k' k) Hne). exact IH.
Qed.

Lemma dict_get_set_ne {V} (k k' : Z) (v : V) (d : list (Z * V)) :
  k' ≠ k → dict_get k' (dict_set k v d) = dict_get k' d.
Proof.
  intros Hne. induction d as [| [k0 v0] d IH]; cbn.
  - rewrite (proj2 (Z.eqb_neq k k')) by congruence. reflexivity.
  - destruct (Z.eqb_spec k0 k) as [-> | Hk]; cbn.
    + rewrite (proj2 (Z.eqb_neq k k')) by congruence. reflexivity.
    + destruct (k0 =? k'); [reflexivity | exact IH].
Qed.

Lemma dict_set_elem {V} (k k' : Z) (v v' : V) (d : list (Z * V)) :
  (k', v') ∈ dict_set k v d → (k', v') = (k, v) ∨ (k', v') ∈ d.
Proof.
  induction d as [| [k0 v0] d IH]; cbn.
  - intros Hin. apply list_elem_of_singleton in Hin. left. exact Hin.
  - destruct (Z.eqb_spec k0 k) as [-> | Hk]; intros Hin;
      apply elem_of_cons in Hin as [Hin | Hin].
    + left. exact Hin.
    + right. apply elem_of_cons. right. exact Hin.
    + right. apply elem_of_cons. left. exact Hin.
    + destruct (IH Hin) as [? | ?]; [left; assumption |].
      right. apply elem_of_cons. right. assumption.
Qed.

Lemma dict_set_keys {V} (k k' : Z) (v : V) (d : list (Z * V)) :
  k' ∈ fst <$> dict_set k v d → k' = k ∨ k' ∈ fst <$> d.
Proof.
  intros Hin. apply list_elem_of_fmap in Hin as ([k0 v0] & -> & Hin). cbn.
  destruct (dict_set_elem _ _ _ _ _ Hin) as [[= -> _] | Hd]; [left; reflexivity |].
  right. apply list_elem_of_fmap. exists (k0, v0). split; [reflexivity | exact Hd].
Qed.

Lemma dict_set_NoDup {V} (k : Z) (v : V) (d : list (Z * V)) :
  NoDup (fst <$> d) → NoDup (fst <$> dict_set k v d).
Proof.
  induction d as [| [k0 v0] d IH]; cbn; intros Hnd.
  - apply NoDup_singleton.
  - apply NoDup_cons in Hnd as [Hnotin Hnd].
    destruct (Z.eqb_spec k0 k) as [-> | Hk]; cbn.
    + apply NoDup_cons. split; assumption.
    + apply NoDup_cons. split; [| apply IH, Hnd].
      intros Hin. apply dict_set_keys in Hin as [-> | Hin]; [congruence |].
      apply Hnotin, Hin.
Qed.


Lemma dict_get_None_keys {V} (k : Z) (d : list (Z * V)) :
  k ∉ fst <$> d → dict_get k d = None.
Proof.
  induction d as [| [k0 v0] d IH]; cbn; intros Hnotin; [reflexivity |].
  apply not_elem_of_cons in Hnotin as [Hne Hnotin].
  rewrite (proj2 (Z.eqb_neq k0 k)) by congruence. apply IH, Hnotin.
Qed.

Lemma points_wf_apply_op (o : op) (st : EmulatorState) :
  points_wf st → points_wf (apply_op o st).
Proof.
  intros [Hnd Hrange]. destruct o; cbn [apply_op]; try (split; assumption).
  - unfold set_di. destruct (in_range 1 24 _); split; assumption.
  - unfold set_do. destruct (in_range 1 12 _); split; assumption.
  - unfold write_modbus. destruct (String.eqb _ _); split; assumption.
  - unfold set_global_point.
    destruct (in_range 1 1000 point_num) eqn:E; [| split; assumption].
    apply in_range_spec in E. split; cbn.
    + apply dict_set_NoDup, Hnd.
    + intros k d Hin. apply dict_set_elem in Hin as [[= -> _] | Hin];
        [exact E | eapply Hrange, Hin].
  - destruct (in_range 1 6 _); split; assumption.
Qed.

Lemma points_wf_run_ops (ops : list op) : points_wf (run_ops ops initial_state).
Proof.
  assert (Hinv : ∀ st, points_wf st → points_wf (run_ops ops st)).
  { induction ops as [| o ops IH]; intros st Hst; [exact Hst |].
    cbn. apply IH, points_wf_apply_op, Hst. }
  apply Hinv. split; cbn.
  - apply NoDup_nil_2.
  - intros k d Hin. apply elem_of_nil in Hin. contradiction.
Qed.

(** X7: storing a point in a slot 1..1000 and looking the slot up returns
    the stored record, whatever the slot held before; every other slot
    resolves as before.  Outside 1..1000 the store returns the state
    unchanged. *)
Theorem point_store_lookup (n : Z) (data : gmap string pyval) (st : EmulatorState) :
  (1 <= n <= 1000 →
     get_global_point (PointNum n) (set_global_point n data st) = Some data
     ∧ ∀ n', n' ≠ n →
         get_global_point (PointNum n') (set_global_point n data st)
         = get_global_point (PointNum n') st)
  ∧ (¬ 1 <= n <= 1000 → set_global_point n data st = st).
Proof.
  split; intros Hn; unfold set_global_point.
  - rewrite (proj2 (in_range_spec 1 1000 n) Hn). cbn. split.
    + apply dict_get_set_eq.
    + intros n' Hne. apply dict_get_set_ne, Hne.
  - rewrite in_range_out by exact Hn. reflexivity.
Qed.

Lemma point_store_lookup_witness :
  get_global_point (PointNum 1000) (set_global_point 1000 ∅ initial_state) = Some ∅
  ∧ set_global_point 1001 ∅ initial_state = initial_state.
Proof.
  destruct (point_store_lookup 1000 ∅ initial_state) as [Hin _].
  destruct (point_store_lookup 1001 ∅ initial_state) as [_ Hout].
  split; [apply Hin; lia | apply Hout; lia].
Defined.






(** X10: with several records of one name the first stored slot wins.
    Storing a record named [s] makes the name resolve to it when no other
    slot carries the name; and once a name resolves, storing any record
    in a slot that was empty does not change what the name resolves to,
    even if the new record carries the same name. *)
Theorem name_lookup_first_wins (n : Z) (s : string) (data : gmap string pyval)
    (st : EmulatorState) :
  1 <= n <= 1000 →
  ((∀ k d, (k, d) ∈ global_points st → k ≠ n → has_name s d = false) →
   has_name s data = true →
   get_global_point (PointName s) (set_global_point n data st) = Some data)
  ∧ (∀ d, get_global_point (PointName s) st = Some d →
          get_global_point (PointNum n) st = None →
          get_global_point (PointName s) (set_global_point n data st) = Some d).
Proof.
  intros Hn. unfold set_global_point.
  rewrite (proj2 (in_range_spec 1 1000 n) Hn). cbn. split.
  - intros Hothers Hname.
    induction (global_points st) as [| [k0 v0] l IH]; cbn.
    + rewrite Hname. reflexivity.
    + destruct (Z.eqb_spec k0 n) as [-> | Hk]; cbn.
      * rewrite Hname. reflexivity.
      * rewrite (Hothers k0 v0); [| apply elem_of_cons; left; reflexivity | exact Hk].
        apply IH. intros k d Hin. apply Hothers. apply elem_of_cons. right. exact Hin.
  - intros d. induction (global_points st) as [| [k0 v0] l IH]; cbn;
      [discriminate |].
    destruct (Z.eqb_spec k0 n) as [-> | Hk]; [discriminate |]. cbn.
    destruct (has_name s v0); [intros Hd _; exact Hd | exact IH].
Qed.

Lemma name_lookup_first_wins_witness :
  get_global_point (PointName "GL_P1")
    (set_global_point 9 (<["name" := VStr "GL_P1"]> ∅) (dev taught))
  = get_global_point (PointName "GL_P1") (dev taught).
Proof.
  destruct (name_lookup_first_wins 9 "GL_P1" (<["name" := VStr "GL_P1"]> ∅)
              (dev taught) ltac:(lia)) as [_ Hkeep].
  apply (Hkeep _ eq_refl eq_refl).
Defined.

(** * Further properties of the host functions *)

(** ** [DO] *)

Lemma shift_and_1_testbit (z : Z) (i : nat) :
  negb (Z.land (Z.shiftr z (Z.of_nat i)) 1 =? 0) = Z.testbit z (Z.of_nat i).
Proof.
  change 1 with (Z.ones 1) at 1. rewrite Z.land_ones by lia.
  change (2 ^ 1) with 2.
  assert (Hbit : Z.testbit (Z.shiftr z (Z.of_nat i)) 0 = Z.testbit z (Z.of_nat i))
    by (rewrite Z.shiftr_spec by lia; reflexivity).
  rewrite <- Hbit, Z.bit0_eqb.
  pose proof (Z.mod_pos_bound (Z.shiftr z (Z.of_nat i)) 2 ltac:(lia)) as Hb.
  destruct (Z.eqb_spec (Z.shiftr z (Z.of_nat i) mod 2) 0) as [E | E];
    destruct (Z.eqb_spec (Z.shiftr z (Z.of_nat i) mod 2) 1); cbn; lia || reflexivity.
Qed.

(** The first loop of the multi-pin mode, from index [a] for [n] pins *)
Lemma DO_set_loop `{Platform} (p z : Z) (n a : nat) (m : Machine) :
  ∃ st',
    for_each (seq a n)
      (fun i => let* state := status_bit (VInt z) i in
                write (set_do (p + Z.of_nat i) state)) m
    = Some (Return tt, mkMachine st' (time_calls m) (sleeps m))
    ∧ (∀ q, get_do q st'
            = if in_window (p + Z.of_nat a) (Z.of_nat n) q
              then Z.testbit z (q - p) else get_do q (dev m))
    ∧ same_but_outputs (dev m) st'
    ∧ script_output st' = script_output (dev m).
Proof.
  revert a m. induction n as [| n IH]; intros a m.
  - exists (dev m). split; [destruct m; reflexivity |]. split.
    + intros q. unfold in_window.
      destruct (Z.leb_spec (p + Z.of_nat a) q); cbn; [| reflexivity].
      rewrite (proj2 (Z.ltb_ge q _)) by lia. reflexivity.
    + split; [repeat split | reflexivity].
  - destruct (IH (S a)
                (mkMachine (set_do (p + Z.of_nat a)
                              (negb (Z.land (Z.shiftr z (Z.of_nat a)) 1 =? 0)) (dev m))
                           (time_calls m) (sleeps m)))
      as (st' & Hrun & Hget & Hframe & Hlog).
    exists st'. split; [exact Hrun |]. cbn [dev] in *. split; [| split].
    + intros q. rewrite Hget, get_do_set_do, shift_and_1_testbit. unfold in_window.
      destruct (Z.eqb_spec (p + Z.of_nat a) q) as [<- | Hne].
      * rewrite (proj2 (Z.leb_gt _ _)) by lia. cbn [andb].
        rewrite Z.leb_refl, (proj2 (Z.ltb_lt _ _)) by lia. cbn [andb].
        destruct (in_range 1 12 _); cbn [andb]; [| reflexivity].
        f_equal. lia.
      * rewrite andb_false_r.
        destruct (in_range 1 12 q); rewrite ?andb_false_r, ?andb_true_r;
          [| reflexivity].
        destruct (Z.leb_spec (p + Z.of_nat (S a)) q);
          destruct (Z.leb_spec (p + Z.of_nat a) q); try lia; cbn [andb];
          [| reflexivity].
        destruct (Z.ltb_spec q (p + Z.of_nat (S a) + Z.of_nat n));
          destruct (Z.ltb_spec q (p + Z.of_nat a + Z.of_nat (S n))); try lia;
          reflexivity.
    + unfold set_do in Hframe. destruct (in_range 1 12 _); exact Hframe.
    + rewrite Hlog. unfold set_do. destruct (in_range 1 12 _); reflexivity.
Qed.

Lemma in_window_to_nat (p n q : Z) :
  in_window (p + Z.of_nat 0) (Z.of_nat (Z.to_nat n)) q = in_window p n q.
Proof.
  unfold in_window. replace (p + Z.of_nat 0) with p by (cbn; lia).
  destruct (Z.leb_spec p q); cbn [andb]; [| reflexivity].
  destruct (Z.ltb_spec q (p + Z.of_nat (Z.to_nat n)));
    destruct (Z.ltb_spec q (p + n)); try lia; reflexivity.
Qed.


Section MorePrimitiveProperties.
Context `{Platform}.

Lemma run_write_then {B} (f : EmulatorState → EmulatorState) (c : M B) (m : Machine) :
  (write f;; c) m = c (mkMachine (f (dev m)) (time_calls m) (sleeps m)).
Proof. reflexivity. Qed.


Lemma DO_multi_unfold (p n z : Z) (delay : pyval) (m : Machine) :
  DO p (VInt n) (VInt z) delay m
  = match for_each (seq 0 (Z.to_nat n))
            (fun i => let* state := status_bit (VInt z) i in
                      write (set_do (p + Z.of_nat i) state)) m with
    | Some (Return _, m1) =>
        (write (add_log ("DO(" +:+ pretty p +:+ ", " +:+ pretty n +:+ ", "
                         +:+ pretty z +:+ ")"));;
         if is_None delay then mret tt
         else
           time_sleep delay;;
           for_each (seq 0 (Z.to_nat n))
             (fun i => let* level := read (get_do (p + Z.of_nat i)) in
                       write (set_do (p + Z.of_nat i) (negb level)))) m1
    | Some (Raise e, m1) => Some (Raise e, m1)
    | None => None
    end.
Proof. reflexivity. Qed.

(** X11: the multi-pin mode drives output [p + i] from bit [i] of the
    pattern, for the [n] pins of the window that exist; outputs outside
    the window or outside 1..12 keep their level (a window that runs past
    pin 12 is cut off silently), nothing but the outputs changes, and one
    line is logged.  A non-positive length sets nothing and still logs. *)
Theorem DO_multi_sets_bits (p n z : Z) (m : Machine) :
  ∃ m',
    DO p (VInt n) (VInt z) VNone m = Some (Return tt, m')
    ∧ (∀ q, get_do q (dev m')
            = if in_window p n q then Z.testbit z (q - p) else get_do q (dev m))
    ∧ same_but_outputs (dev m) (dev m')
    ∧ script_output (dev m')
      = (script_output (dev m)
         ++ ["DO(" +:+ pretty p +:+ ", " +:+ pretty n +:+ ", " +:+ pretty z +:+ ")"])%list.
Proof.
  destruct (DO_set_loop p z (Z.to_nat n) 0 m) as (st' & Hrun & Hget & Hframe & Hlog).
  rewrite DO_multi_unfold, Hrun. cbn [is_None]. rewrite run_write_then.
  eexists. split; [reflexivity |]. cbn [dev]. split; [| split].
  - intros q. rewrite <- in_window_to_nat, <- Hget. reflexivity.
  - exact Hframe.
  - cbn. rewrite Hlog. reflexivity.
Qed.


(** X13: the single-pin mode without delay sets a valid pin to ON when the
    status is "ON" in any letter case and to OFF for every other string,
    touches nothing else, and logs one line.  On a pin outside 1..12 the
    line is logged all the same, although no output has changed. *)
Theorem DO_single_sets (pin : Z) (s : string) (extra : pyval) (m : Machine) :
  ∃ m',
    DO pin (VStr s) VNone extra m = Some (Return tt, m')
    ∧ (∀ q, get_do q (dev m')
            = if in_range 1 12 pin && (pin =? q)
              then String.eqb (upper s) "ON" else get_do q (dev m))
    ∧ (¬ 1 <= pin <= 12 → do_state (dev m') = do_state (dev m))
    ∧ same_but_outputs (dev m) (dev m')
    ∧ script_output (dev m')
      = (script_output (dev m)
         ++ ["DO(" +:+ pretty pin +:+ ", "
             +:+ (if String.eqb (upper s) "ON" then "ON" else "OFF") +:+ ")"])%list.
Proof.
  eexists. split; [reflexivity |]. cbn [dev]. split; [| split; [| split]].
  - intros q.
    assert (Hlog : ∀ line st, get_do q (add_log line st) = get_do q st)
      by reflexivity.
    rewrite Hlog. apply get_do_set_do.
  - intros Hout. unfold set_do. rewrite in_range_out by exact Hout. reflexivity.
  - unfold set_do. destruct (in_range 1 12 pin); repeat split.
  - unfold set_do. destruct (in_range 1 12 pin); reflexivity.
Qed.


(** X15: the multi-pin mode called without a pattern, [DO(p, n)] with an
    integer [n], fails with TypeError before any output or the log is
    touched when [n >= 1]; for [n <= 0] no bit is needed, the call
    succeeds and logs the pattern as None. *)
Theorem DO_missing_pattern (p n : Z) (delay : pyval) (m : Machine) :
  (1 <= n →
     DO p (VInt n) VNone delay m
     = Some (Raise (mkExn TypeError
                      "unsupported operand type(s) for >>: 'NoneType' and 'int'"), m))
  ∧ (n <= 0 →
     DO p (VInt n) VNone VNone m
     = Some (Return tt,
             mkMachine
               (add_log ("DO(" +:+ pretty p +:+ ", " +:+ pretty n +:+ ", None)") (dev m))
               (time_calls m) (sleeps m))).
Proof.
  split; intros Hn; unfold DO, py_range; cbn [as_int]; unfold bind at 1;
    cbn [mret M_ret ret].
  - destruct (Z.to_nat n) as [| k] eqn:E; [lia |]. reflexivity.
  - replace (Z.to_nat n) with 0%nat by lia. reflexivity.
Qed.
End MorePrimitiveProperties.



Lemma DO_single_sets_witness :
  ∃ m',
    @DO quiet 13 (VStr "ON") VNone VNone boot = Some (Return tt, m')
    ∧ do_state (dev m') = do_state (dev boot)
    ∧ script_output (dev m') = ["DO(13, ON)"].
Proof.
  destruct (@DO_single_sets quiet 13 "ON" VNone boot)
    as (m' & Hm' & _ & Hout & _ & Hlog).
  exists m'. split; [exact Hm' |]. split; [apply Hout; lia | exact Hlog].
Defined.

Lemma DO_missing_pattern_witness :
  @DO quiet 1 (VInt 4) VNone VNone boot
  = Some (Raise (mkExn TypeError
                   "unsupported operand type(s) for >>: 'NoneType' and 'int'"), boot).
Proof. apply (@DO_missing_pattern quiet 1 4 VNone boot). lia. Defined.

(** ** External lines *)

Lemma ext_di_apply_op (o : op) (st : EmulatorState) :
  ext_di_state (apply_op o st) = ext_di_state st.
Proof.
  destruct o; cbn [apply_op]; try reflexivity.
  - unfold set_di. destruct (in_range 1 24 _); reflexivity.
  - unfold set_do. destruct (in_range 1 12 _); reflexivity.
  - unfold write_modbus. destruct (String.eqb _ _); reflexivity.
  - unfold set_global_point. destruct (in_range 1 1000 _); reflexivity.
  - destruct (in_range 1 6 _); reflexivity.
Qed.

(** X16: nothing writes the external inputs: not [ExtDO] (it writes the
    external outputs), nor any other assignment to the state.  So after
    any sequence of writes [ExtDI] returns "OFF" for every address and
    pin, also for a line [ExtDO] has just switched on. *)
Theorem ExtDI_always_off (ops : list op) (address_index pin_index : Z) (k j : nat) :
  ExtDI address_index pin_index (mkMachine (run_ops ops initial_state) k j)
  = Some (Return (VStr "OFF"), mkMachine (run_ops ops initial_state) k j).
Proof.
  assert (Hext : ext_di_state (run_ops ops initial_state) = ∅).
  { assert (Hinv : ∀ st, ext_di_state (run_ops ops st) = ext_di_state st).
    { induction ops as [| o ops IH]; intros st; [reflexivity |].
      cbn. rewrite IH. apply ext_di_apply_op. }
    rewrite Hinv. reflexivity. }
  unfold ExtDI, bind, read. cbn [dev]. rewrite Hext, lookup_empty. reflexivity.
Qed.

Section ExternalOutputs.
Context `{Platform}.

End ExternalOutputs.


(** ** Joints *)

Lemma joints_apply_op (o : op) (st : EmulatorState) :
  length (joint_angles (apply_op o st)) = length (joint_angles st).
Proof.
  destruct o; cbn [apply_op]; try reflexivity.
  - unfold set_di. destruct (in_range 1 24 _); reflexivity.
  - unfold set_do. destruct (in_range 1 12 _); reflexivity.
  - unfold write_modbus. destruct (String.eqb _ _); reflexivity.
  - unfold set_global_point. destruct (in_range 1 1000 _); reflexivity.
  - destruct (in_range 1 6 _); [| reflexivity]. cbn. apply length_insert.
Qed.

Lemma joints_run_ops (ops : list op) :
  length (joint_angles (run_ops ops initial_state)) = 6%nat.
Proof.
  assert (Hinv : ∀ st, length (joint_angles (run_ops ops st))
                       = length (joint_angles st)).
  { induction ops as [| o ops IH]; intros st; [reflexivity |].
    cbn. rewrite IH. apply joints_apply_op. }
  rewrite Hinv. reflexivity.
Qed.

Section JointProperties.
Context `{Platform}.

(** X18: there are always six joint angles.  [MovJ] on a joint 1..6 sets
    that angle (joint [j] is entry [j - 1]), keeps the other five and the
    Cartesian position, and logs one line; on any other joint number it
    does nothing at all: no change and, unlike an out-of-range [DO], no
    log line. *)
Theorem MovJ_contract (ops : list op) (joint : Z) (degree : pyval) (k j : nat) :
  length (joint_angles (run_ops ops initial_state)) = 6%nat
  ∧ (1 <= joint <= 6 →
     ∃ m',
       MovJ joint degree (mkMachine (run_ops ops initial_state) k j)
       = Some (Return tt, m')
       ∧ joint_angles (dev m') !! Z.to_nat (joint - 1) = Some degree
       ∧ (∀ i, i ≠ Z.to_nat (joint - 1) →
               joint_angles (dev m') !! i
               = joint_angles (run_ops ops initial_state) !! i)
       ∧ length (joint_angles (dev m')) = 6%nat
       ∧ current_position (dev m') = current_position (run_ops ops initial_state)
       ∧ script_output (dev m')
         = (script_output (run_ops ops initial_state)
            ++ ["MovJ(Joint " +:+ pretty joint +:+ ", " +:+ py_str degree +:+ "°)"])%list)
  ∧ (¬ 1 <= joint <= 6 →
     ∀ m, MovJ joint degree m = Some (Return tt, m)).
Proof.
  pose proof (joints_run_ops ops) as Hlen. split; [exact Hlen |]. split.
  - intros Hj. unfold MovJ. rewrite (proj2 (in_range_spec 1 6 joint) Hj).
    eexists. split; [reflexivity |]. cbn.
    split; [apply list_lookup_insert_eq; lia |].
    split; [intros i Hi; apply list_lookup_insert_ne; congruence |].
    split; [rewrite length_insert; exact Hlen |].
    split; reflexivity.
  - intros Hj m. unfold MovJ. rewrite in_range_out by exact Hj. reflexivity.
Qed.
End JointProperties.

Lemma MovJ_contract_witness :
  (∃ m',
      @MovJ quiet 6 (VInt 90) boot = Some (Return tt, m')
      ∧ joint_angles (dev m') !! 5%nat = Some (VInt 90))
  ∧ @MovJ quiet 7 (VInt 90) boot = Some (Return tt, boot).
Proof.
  destruct (@MovJ_contract quiet [] 6 (VInt 90) 0 0) as (_ & Hin & _).
  destruct (@MovJ_contract quiet [] 7 (VInt 90) 0 0) as (_ & _ & Hout).
  split.
  - destruct (Hin ltac:(lia)) as (m' & Hm' & Hset & _).
    exists m'. split; [exact Hm' | exact Hset].
  - apply Hout. lia.
Defined.

(** ** Points and motion *)

Lemma found_of_lookup (d : gmap string pyval) (key : string) (v : pyval) :
  d !! key = Some v → found (Some d) = true.
Proof.
  intros Hkey. unfold found. destruct (size d) as [| k] eqn:E; [| reflexivity].
  apply map_size_empty_inv in E. subst d. rewrite lookup_empty in Hkey.
  discriminate.
Qed.

Section PointProperties.
Context `{Platform}.

(** X19: when the reference resolves to a record with x, y and z,
    [MovP] and [MovL] set the position to these and to the record's rx,
    ry, rz, each 0 when the record has none; the joint angles stay, and
    one line is logged.  When the record lacks one of "x", "y", "z" the
    call fails with KeyError and the state is untouched. *)
Theorem move_to_known_point_contract (point : point_ref) (d : gmap string pyval)
    (m : Machine) :
  get_global_point point (dev m) = Some d →
  (∀ x y z,
     d !! "x" = Some x → d !! "y" = Some y → d !! "z" = Some z →
     ∀ fname move,
       (fname, move) = ("MovP", MovP) ∨ (fname, move) = ("MovL", MovL) →
       ∃ m',
         move point m = Some (Return tt, m')
         ∧ current_position (dev m')
           = mkPosition x y z (default (VInt 0) (d !! "rx"))
               (default (VInt 0) (d !! "ry")) (default (VInt 0) (d !! "rz"))
         ∧ joint_angles (dev m') = joint_angles (dev m)
         ∧ script_output (dev m')
           = (script_output (dev m)
              ++ [fname +:+ "(" +:+ ref_str point +:+ ") -> (" +:+ py_str x
                  +:+ ", " +:+ py_str y +:+ ", " +:+ py_str z +:+ ")"])%list)
  ∧ (∀ key,
       key = "x" ∨ (key = "y" ∧ is_Some (d !! "x"))
       ∨ (key = "z" ∧ is_Some (d !! "x") ∧ is_Some (d !! "y")) →
       d !! key = None → d ≠ ∅ →
       MovP point m = Some (Raise (mkExn KeyError ("'" +:+ key +:+ "'")), m)).
Proof.
  intros Hget. split.
  - intros x y z Hx Hy Hz fname move Hmove.
    assert (Hrun : move_to_point fname point m
                   = Some (Return tt,
                           mkMachine
                             (add_log (fname +:+ "(" +:+ ref_str point +:+ ") -> ("
                                       +:+ py_str x +:+ ", " +:+ py_str y +:+ ", "
                                       +:+ py_str z +:+ ")")
                                (move_to_position x y z
                                   (default (VInt 0) (d !! "rx"))
                                   (default (VInt 0) (d !! "ry"))
                                   (default (VInt 0) (d !! "rz")) (dev m)))
                             (time_calls m) (sleeps m))).
    { unfold move_to_point, bind at 1, read. rewrite Hget.
      rewrite (found_of_lookup d "x" x Hx).
      unfold item, bind. rewrite Hx, Hy, Hz. reflexivity. }
    exists (mkMachine
              (add_log (fname +:+ "(" +:+ ref_str point +:+ ") -> ("
                        +:+ py_str x +:+ ", " +:+ py_str y +:+ ", "
                        +:+ py_str z +:+ ")")
                 (move_to_position x y z
                    (default (VInt 0) (d !! "rx"))
                    (default (VInt 0) (d !! "ry"))
                    (default (VInt 0) (d !! "rz")) (dev m)))
              (time_calls m) (sleeps m)).
    split; [| repeat split].
    destruct Hmove as [[= -> ->] | [= -> ->]]; exact Hrun.
  - intros key Hkey Hmissing Hne.
    assert (Hfound : found (Some d) = true).
    { unfold found. destruct (size d) as [| k] eqn:E; [| reflexivity].
      apply map_size_empty_inv in E. contradiction. }
    unfold MovP, move_to_point, bind at 1, read. rewrite Hget, Hfound.
    destruct Hkey as [-> | [[-> [x Hx]] | (-> & [x Hx] & [y Hy])]];
      unfold item, bind; rewrite ?Hx, ?Hy, Hmissing; reflexivity.
Qed.

(** X20: a point stored by [SetGlobalPoint] in a slot 1..1000 is the
    target of a following [MovP] on that slot: the position becomes the
    six coordinates given.  With a slot outside 1..1000 [SetGlobalPoint]
    still logs its line but the table is unchanged. *)
Theorem SetGlobalPoint_then_MovP (n : Z) (name x y z rx ry rz : pyval)
    (elbow shoulder flip uf tf jrc : pyval) (m : Machine) :
  (1 <= n <= 1000 →
     ∃ m',
       (SetGlobalPoint n name x y z rx ry rz elbow shoulder flip uf tf jrc;;
        MovP (PointNum n)) m = Some (Return tt, m')
       ∧ current_position (dev m') = mkPosition x y z rx ry rz)
  ∧ (¬ 1 <= n <= 1000 →
     ∃ m',
       SetGlobalPoint n name x y z rx ry rz elbow shoulder flip uf tf jrc m
       = Some (Return tt, m')
       ∧ global_points (dev m') = global_points (dev m)
       ∧ length (script_output (dev m')) = S (length (script_output (dev m)))).
Proof.
  split; intros Hn.
  - unfold SetGlobalPoint. cbv [mbind M_bind bind write].
    unfold MovP, move_to_point, bind at 1, read. cbn [dev].
    unfold set_global_point. rewrite (proj2 (in_range_spec 1 1000 n) Hn).
    cbn [get_global_point global_points with_global_points add_log with_script_output].
    rewrite !dict_get_set_eq.
    match goal with
    | |- context [found (Some ?d)] => rewrite (found_of_lookup d "x" x eq_refl)
    end.
    eexists. split; [reflexivity |]. reflexivity.
  - unfold SetGlobalPoint. rewrite run_write_then.
    eexists. split; [reflexivity |]. cbn [dev].
    unfold set_global_point. rewrite in_range_out by exact Hn.
    split; [reflexivity |]. cbn. rewrite length_app. cbn. lia.
Qed.
End PointProperties.

Lemma move_to_known_point_contract_witness :
  ∃ m',
    @MovL quiet (PointNum 5) taught = Some (Return tt, m')
    ∧ current_position (dev m')
      = mkPosition (VInt 200) (VInt 200) (VInt (-100)) (VInt 0) (VInt 0) (VInt 0).
Proof.
  destruct (@move_to_known_point_contract quiet (PointNum 5) _ taught eq_refl)
    as [Hmove _].
  destruct (Hmove (VInt 200) (VInt 200) (VInt (-100)) eq_refl eq_refl eq_refl
              "MovL" (@MovL quiet) (or_intror eq_refl))
    as (m' & Hm' & Hpos & _).
  exists m'. split; [exact Hm' | exact Hpos].
Defined.

Lemma SetGlobalPoint_then_MovP_witness :
  ∃ m',
    (@SetGlobalPoint quiet 1 (VStr "GL_A") (VInt 1) (VInt 2) (VInt 3)
       (VInt 4) (VInt 5) (VInt 6) (VInt 0) (VInt 0) (VInt 0) (VInt 0) (VInt 0) VNone;;
     @MovP quiet (PointNum 1)) boot = Some (Return tt, m')
    ∧ current_position (dev m')
      = mkPosition (VInt 1) (VInt 2) (VInt 3) (VInt 4) (VInt 5) (VInt 6).
Proof.
  apply (@SetGlobalPoint_then_MovP quiet 1 (VStr "GL_A") (VInt 1) (VInt 2) (VInt 3)
           (VInt 4) (VInt 5) (VInt 6) (VInt 0) (VInt 0) (VInt 0) (VInt 0) (VInt 0)
           VNone boot).
  lia.
Defined.


Section ReadPointProperties.
Context `{Platform}.

End ReadPointProperties.


(** ** [WAIT] *)

Section MoreWaitProperties.
Context `{Platform}.

(** X22: when the line is already at the requested level, the DI/DO
    form of [WAIT] returns at the first poll, with or without a numeric
    timeout: it has read the clock once, logged its one line, not slept,
    and changed nothing else. *)
Theorem WAIT_returns_at_once (fuel : nat) (kind s : string) (i : Z)
    (rest : list pyval) (m : Machine) :
  upper kind = "DI" ∨ upper kind = "DO" →
  (∀ t, head rest = Some t → is_Some (as_number t)) →
  (if String.eqb (upper kind) "DI" then get_di i (dev m) else get_do i (dev m))
  = String.eqb (upper s) "ON" →
  WAIT (S fuel) (VStr kind :: VInt i :: VStr s :: rest) m
  = Some (Return tt,
          mkMachine
            (add_log ("WAIT(" +:+ upper kind +:+ ", " +:+ pretty i +:+ ", "
                      +:+ (if String.eqb (upper s) "ON" then "ON" else "OFF") +:+ ")")
               (dev m))
            (S (time_calls m)) (sleeps m)).
Proof.
  intros Hkind Hnum Hlevel. unfold WAIT. rewrite (io_type_of_kind kind Hkind).
  assert (Hloop : ∀ timeout start st,
            (if String.eqb (upper kind) "DI" then get_di i st else get_do i st)
            = String.eqb (upper s) "ON" →
            ∀ k j, wait_io (S fuel) (upper kind) (VInt i) (String.eqb (upper s) "ON")
                     timeout start (mkMachine st k j)
                   = Some (Return tt, mkMachine st k j)).
  { intros timeout start st Hst k j. cbn [wait_io]. unfold bind at 1, polled.
    destruct (String.eqb (upper kind) "DI");
      unfold pin_level, dict_key, bind, mret, M_ret, ret, read; cbn [dev];
      rewrite Hst, Bool.eqb_reflx; reflexivity. }
  destruct rest as [| t rest].
  - unfold bind, mret, M_ret, ret, time_now, write, mbind, M_bind, bind.
    apply Hloop. exact Hlevel.
  - destruct (Hnum t eq_refl) as [ms Hms]. rewrite Hms.
    unfold bind, mret, M_ret, ret, time_now, write, mbind, M_bind, bind.
    apply Hloop. exact Hlevel.
Qed.



End MoreWaitProperties.

Lemma WAIT_returns_at_once_witness :
  @WAIT quiet 1 [VStr "do"; VInt 2; VStr "off"; VInt 500] boot
  = Some (Return tt, mkMachine (add_log "WAIT(DO, 2, OFF)" initial_state) 1 0).
Proof.
  apply (@WAIT_returns_at_once quiet 0 "do" "off" 2 [VInt 500] boot).
  - right. reflexivity.
  - intros t [= <-]. eexists. reflexivity.
  - reflexivity.
Defined.




(** ** Script execution *)

(** X26: whenever [execute_script] comes back, with a result or with an
    exception, [script_running] is false; the only exceptions it lets
    through are those that are not instances of [Exception]; and the
    output of a result is the log as it is left in the state: the log is
    not consumed by the call and stays readable until the next run
    clears it. *)
Theorem execute_script_on_return (lua_execute : string → M unit)
    (script_code : string) (m m' : Machine) (r : py_result script_result) :
  execute_script lua_execute script_code m = Some (r, m') →
  script_running (dev m') = false
  ∧ (∀ e, r = Raise e → is_Exception (exn_cls e) = false)
  ∧ (∀ res, r = Return res →
            output res = script_output (dev m')
            ∧ ((status res = "success" ∧ error res = None)
               ∨ (status res = "error" ∧ is_Some (error res)))).
Proof.
  unfold execute_script.
  destruct ((start_script;; lua_execute script_code) m) as [[[[] | e] m1] |];
    [| destruct (is_Exception (exn_cls e)) eqn:E |]; intros [= <- <-].
  - split; [reflexivity |]. split; [discriminate |].
    intros res [= <-]. split; [reflexivity |]. left. split; reflexivity.
  - split; [reflexivity |]. split; [discriminate |].
    intros res [= <-]. split; [reflexivity |]. right. split; [reflexivity | eauto].
  - split; [reflexivity |]. split; [intros e' [= <-]; exact E | discriminate].
Qed.

Lemma execute_script_on_return_witness :
  script_running
    (dev (mkMachine (add_log "[PRINT] 1" initial_state) 0 0)) = false.
Proof.
  apply (execute_script_on_return (@table_runtime quiet 10 example_scripts)
           "print(1)" busy (mkMachine (add_log "[PRINT] 1" initial_state) 0 0)
           (Return (mkResult "success" ["[PRINT] 1"] None))).
  vm_compute. reflexivity.
Defined.

(** ** Request handlers *)

(** X27: [POST /api/di] treats a length of 0 like a missing length and
    answers with the status of the one pin, where the host function
    [DI(pin, 0)] answers with the integer 0; for every other length the
    two agree on the packed value.  Neither changes the state. *)
Theorem di_post_contract (pin : Z) (m : Machine) :
  (∀ length, length = None ∨ length = Some 0 →
     di_post pin length m
     = Some (Return (DIStatus pin (if get_di pin (dev m) then "ON" else "OFF")), m))
  ∧ (∀ n, n ≠ 0 →
       di_post pin (Some n) m
       = Some (Return (DIValue pin n
                         (pack_pins (fun q => get_di q (dev m)) pin (Z.to_nat n))), m)
       ∧ DI pin (Some n) m
         = Some (Return (VInt (pack_pins (fun q => get_di q (dev m)) pin (Z.to_nat n))),
                 m))
  ∧ DI pin (Some 0) m = Some (Return (VInt 0), m).
Proof.
  split; [| split].
  - intros length [-> | ->]; reflexivity.
  - intros n Hn. split; [| reflexivity]. unfold di_post.
    rewrite (proj2 (Z.eqb_neq n 0) Hn). reflexivity.
  - reflexivity.
Qed.

Lemma di_post_contract_witness :
  di_post 3 (Some 0) boot = Some (Return (DIStatus 3 "OFF"), boot)
  ∧ DI 3 (Some 0) boot = Some (Return (VInt 0), boot).
Proof.
  destruct (di_post_contract 3 boot) as (Hzero & _ & Hlua).
  split; [apply Hzero; right; reflexivity | exact Hlua].
Defined.

Section HandlerProperties.
Context `{Platform}.


End HandlerProperties.

(** X29: the width is compared as written by the host functions and in
    upper case by the request handlers.  With a width whose upper case is
    "DW", a handler write followed by a handler read returns the value
    masked to 32 bits; with the same width not literally "DW" (say "dw"),
    [WriteModbus] followed by [ReadModbus] is a 16-bit access and returns
    the value masked to 16 bits. *)
Theorem modbus_width_letter_case (a v : Z) (size : string) (m : Machine) :
  upper size = "DW" →
  (∃ r m',
      (modbus_write_post a size v;; modbus_read_post a size) m = Some (Return r, m')
      ∧ mb_value r = Z.land v 0xFFFFFFFF
      ∧ mb_size r = "DW")
  ∧ (size ≠ "DW" →
     ∃ m',
       (WriteModbus a size v;; ReadModbus a size) m
       = Some (Return (Z.land v 0xFFFF), m')).
Proof.
  intros Hup. split.
  - unfold modbus_write_post, modbus_read_post. rewrite Hup.
    cbv [mbind M_bind bind write read mret M_ret ret]. cbn [dev].
    eexists. eexists. split; [reflexivity |]. cbn [mb_value mb_size].
    split; [| reflexivity].
    unfold read_modbus, reg_get. cbn [String.eqb Ascii.eqb Bool.eqb].
    rewrite write_dword_low, write_dword_high. cbn [default].
    apply split_join_halves.
  - intros Hsize. unfold WriteModbus, ReadModbus.
    cbv [mbind M_bind bind write read mret M_ret ret]. cbn [dev].
    eexists. f_equal. f_equal. f_equal.
    assert (Hlog : ∀ line st, read_modbus a size (add_log line st)
                              = read_modbus a size st) by reflexivity.
    rewrite Hlog, read_modbus_word by exact Hsize.
    rewrite reg_get_write_word by exact Hsize. rewrite Z.eqb_refl. reflexivity.
Qed.


Lemma modbus_width_letter_case_witness :
  ∃ m',
    (WriteModbus 0x1000 "dw" 0x12345678;; ReadModbus 0x1000 "dw") boot
    = Some (Return 0x5678, m').
Proof.
  destruct (modbus_width_letter_case 0x1000 0x12345678 "dw" boot eq_refl)
    as [_ Hlua].
  apply Hlua. discriminate.
Defined.

Lemma unknown_slot_out_of_range (ops : list op) (n : Z) :
  ¬ 1 <= n <= 1000 →
  get_global_point (PointNum n) (run_ops ops initial_state) = None.
Proof.
  intros Hout. destruct (points_wf_run_ops ops) as [_ Hrange]. cbn.
  apply dict_get_None_keys. intros Hin.
  apply list_elem_of_fmap in Hin as ([k d] & -> & Hin).
  apply Hout. eapply Hrange, Hin.
Qed.

(** X30: [POST /api/point/set] followed by [GET /api/point/get/n].  For
    a slot 1..1000 the reply carries the record just stored, with 0 for
    the rotations and frames left out of the request.  For any other slot
    the first handler still answers "set successfully", but nothing was
    stored and the second answers not found (404). *)
Theorem point_handlers_round_trip (ops : list op) (n : Z) (name x y z : pyval)
    (rx ry rz uf tf : option pyval) (k j : nat) :
  (∃ r m',
      set_point_post n name x y z rx ry rz uf tf
        (mkMachine (run_ops ops initial_state) k j) = Some (Return r, m')
      ∧ sp_message r = "Point " +:+ pretty n +:+ " set successfully")
  ∧ (1 <= n <= 1000 →
     ∃ m',
       (set_point_post n name x y z rx ry rz uf tf;; get_point_get n)
         (mkMachine (run_ops ops initial_state) k j)
       = Some (Return (PointOK n (rest_point_data name x y z rx ry rz uf tf)), m'))
  ∧ (¬ 1 <= n <= 1000 →
     (set_point_post n name x y z rx ry rz uf tf;; get_point_get n)
       (mkMachine (run_ops ops initial_state) k j)
     = Some (Return (PointNotFound ("Point " +:+ pretty n +:+ " not found")),
             mkMachine (run_ops ops initial_state) k j)).
Proof.
  split; [| split].
  - eexists. eexists. split; reflexivity.
  - intros Hn. unfold set_point_post, get_point_get.
    cbv [mbind M_bind bind write read mret M_ret ret]. cbn [dev].
    unfold set_global_point. rewrite (proj2 (in_range_spec 1 1000 n) Hn).
    cbn [get_global_point global_points with_global_points].
    rewrite !dict_get_set_eq.
    match goal with
    | |- context [found (Some ?d)] => rewrite (found_of_lookup d "x" x eq_refl)
    end.
    eexists. reflexivity.
  - intros Hn. unfold set_point_post, get_point_get.
    cbv [mbind M_bind bind write read mret M_ret ret]. cbn [dev].
    unfold set_global_point. rewrite in_range_out by exact Hn.
    rewrite (unknown_slot_out_of_range ops n Hn). reflexivity.
Qed.

Lemma point_handlers_round_trip_witness :
  (set_point_post 0 (VStr "GL_P0") (VFloat 1) (VFloat 2) (VFloat 3)
     None None None None None;; get_point_get 0) boot
  = Some (Return (PointNotFound "Point 0 not found"), boot).
Proof.
  destruct (point_handlers_round_trip [] 0 (VStr "GL_P0") (VFloat 1) (VFloat 2)
              (VFloat 3) None None None None None 0 0) as (_ & _ & Hout).
  apply Hout. lia.
Defined.

